(** * Edge device console: streaming / telemetry pipeline

    A shallow embedding of the client console's streaming core:
    - [LiveView] (the live-view component: [processFrame], [startStream],
      [stopStream], [drawBoundingBoxes]),
    - [app/page.tsx] ([pollHealth], [handleDetection]),
    - [components/detections-list.tsx] ([filteredDetections]).

    Conventions of the embedding.
    - [Date.now()] values and their differences are integers ([Z]); the
      numeric fields of a response are finite and kept as rationals ([Q]).
    - The result of a division or of arithmetic on it is a [JS.number]:
      [NaN], an infinity, or a finite value kept as an exact rational.
      The rounding of a finite result to the nearest double is not
      modelled; signed zeros are identified.
    - The one place where double rounding could change a discrete result,
      [Math.floor(length * 0.95)], is computed with the IEEE-754 binary64
      operations of [SpecFloat].
    - React state is explicit: hook state lives in a record, a callback is
      the snapshot of the render that created it, and an event handler is a
      function from state to state. *)

From Stdlib Require Import String Ascii.
From Stdlib Require Import ZArith QArith Lia Bool List.
From Stdlib Require Import Sorting.Sorted Sorting.Permutation.
From Stdlib Require Import Floats.SpecFloat.
Import ListNotations.

(* ------------------------------------------------------------------ *)
(** ** JavaScript numbers *)

Module JS.

Inductive number : Type :=
| NaN
| Infinity (negative : bool)
| Num (q : Q).

Definition Qneg_b (q : Q) : bool := negb (Qle_bool 0 q).
Definition Qzero_b (q : Q) : bool := Qeq_bool q 0.

(** [a / b] on finite operands. *)
Definition div (a b : Q) : number :=
  if Qzero_b b then
    if Qzero_b a then NaN else Infinity (Qneg_b a)
  else Num (a / b).

(** [a * b], [a - b], [a + b] on numbers. *)
Definition mul (a b : number) : number :=
  match a, b with
  | NaN, _ | _, NaN => NaN
  | Num x, Num y => Num (x * y)
  | Infinity s, Num y | Num y, Infinity s =>
      if Qzero_b y then NaN else Infinity (xorb s (Qneg_b y))
  | Infinity s, Infinity t => Infinity (xorb s t)
  end.

Definition add (a b : number) : number :=
  match a, b with
  | NaN, _ | _, NaN => NaN
  | Num x, Num y => Num (x + y)
  | Infinity s, Num _ | Num _, Infinity s => Infinity s
  | Infinity s, Infinity t => if Bool.eqb s t then Infinity s else NaN
  end.

Definition opp (a : number) : number :=
  match a with
  | NaN => NaN
  | Infinity s => Infinity (negb s)
  | Num x => Num (- x)
  end.

Definition sub (a b : number) : number := add a (opp b).

Definition is_numeric (a : number) : bool :=
  match a with Num _ => true | _ => false end.

(** binary64: the format of every JavaScript number. *)
Definition prec : Z := 53.
Definition emax : Z := 1024.

Definition f64_of_Z (z : Z) : spec_float :=
  match z with
  | Z0 => S754_zero false
  | Zpos p => binary_normalize prec emax (Zpos p) 0 false
  | Zneg p => SFopp (binary_normalize prec emax (Zpos p) 0 false)
  end.

(** The literal [0.95]: the double nearest to 95/100. *)
Definition lit_0_95 : spec_float :=
  SFdiv prec emax (f64_of_Z 95) (f64_of_Z 100).

(** [Math.floor] of a double, when the result is an integer. *)
Definition Math_floor (f : spec_float) : option Z :=
  match f with
  | S754_zero _ => Some 0%Z
  | S754_finite s m e =>
      let v := if s then Zneg m else Zpos m in
      Some (if (0 <=? e)%Z then v * 2 ^ e else v / 2 ^ (- e))%Z
  | _ => None
  end.

(** [arr[i] || 0] for an array of integers: [undefined] (index out of
    range) and [0] are falsy, so both give [0]. *)
Definition index_or_0 (arr : list Z) (i : nat) : Z :=
  match nth_error arr i with
  | Some v => if (v =? 0)%Z then 0%Z else v
  | None => 0%Z
  end.

(** [[...arr].sort((a, b) => a - b)]: the comparator is a consistent total
    order on integers, so the result is the ascending arrangement of the
    elements, whatever algorithm the engine uses.  Insertion sort computes
    it. *)
Fixpoint insert_asc (x : Z) (l : list Z) : list Z :=
  match l with
  | [] => [x]
  | y :: l' => if (x - y <=? 0)%Z then x :: l else y :: insert_asc x l'
  end.

Fixpoint sort_asc (l : list Z) : list Z :=
  match l with
  | [] => []
  | x :: l' => insert_asc x (sort_asc l')
  end.

(** [arr.reduce((a, b) => a + b, 0)]. *)
Definition sum (l : list Z) : Z := fold_left Z.add l 0%Z.

End JS.

(* ------------------------------------------------------------------ *)
(** ** Data model ([lib/types.ts]) *)

Record BoundingBox : Type := {
  label : string;
  confidence : Q;
  x_min : Q;
  y_min : Q;
  x_max : Q;
  y_max : Q
}.

Record Metadata : Type := {
  model_path : option string;
  detection_count : Z;
  inference_ms : Q;
  note : option string
}.

Record InferenceRequest : Type := {
  capture_from_camera : bool;
  image_base64 : option string;
  return_image : bool
}.

Record InferenceResponse : Type := {
  r_detections : list BoundingBox;
  r_metadata : Metadata;
  r_encoded_image : option string
}.

Record DetectionEvent : Type := {
  id : string;
  timestamp : Z;
  detections : list BoundingBox;
  thumbnail : option string;
  metadata : Metadata
}.

Record SessionStats : Type := {
  avgLatency : JS.number;
  p95Latency : JS.number;
  detectionsPerMin : Z;
  totalFrames : nat;
  latencyHistory : list Z
}.

(* ------------------------------------------------------------------ *)
(** ** Detection event store ([app/page.tsx], [handleDetection]) *)

Module Store.

(** [setDetectionEvents((prev) => [event, ...prev].slice(0, 50))]. *)
Definition handleDetection (event : DetectionEvent)
    (prev : list DetectionEvent) : list DetectionEvent :=
  firstn 50 (event :: prev).

(** The store after the events [es] were reported in that order. *)
Definition appendAll (es : list DetectionEvent)
    (store : list DetectionEvent) : list DetectionEvent :=
  fold_left (fun s e => handleDetection e s) es store.

End Store.

(* ------------------------------------------------------------------ *)
(** ** Telemetry aggregator (the body of [processFrame]) *)

Module Telemetry.

(** The refs of the live view and the page state its callbacks write. *)
Record Session : Type := {
  latencyHistoryRef : list Z;
  detectionHistoryRef : list (Z * Z);   (* (timestamp, count) *)
  frameCountRef : nat;
  currentLatency : Z;
  detectionCount : nat;
  sessionStats : SessionStats;          (* page state, via onStatsUpdate *)
  detectionEvents : list DetectionEvent;(* page state, via onDetection *)
  lastFrameTime : option Z;             (* page state, via onFrameUpdate *)
  toasts : list string
}.

Definition initialStats : SessionStats :=
  {| avgLatency := JS.Num 0; p95Latency := JS.Num 0; detectionsPerMin := 0;
     totalFrames := 0; latencyHistory := [] |}.

Definition initial : Session :=
  {| latencyHistoryRef := []; detectionHistoryRef := []; frameCountRef := 0;
     currentLatency := 0; detectionCount := 0;
     sessionStats := initialStats; detectionEvents := [];
     lastFrameTime := None; toasts := [] |}.

(** [latencyHistoryRef.current.push(latency);
     if (latencyHistoryRef.current.length > 60) latencyHistoryRef.current.shift()]. *)
Definition recordLatency (buf : list Z) (latency : Z) : list Z :=
  let pushed := buf ++ [latency] in
  if 60 <? length pushed then tl pushed else pushed.

(** [push({timestamp: now, count}); filter(entry => now - entry.timestamp < 60000)]. *)
Definition recordDetections (hist : list (Z * Z)) (now count : Z)
    : list (Z * Z) :=
  filter (fun entry => (now - fst entry <? 60000)%Z) (hist ++ [(now, count)]).

(** [reduce((a, b) => a + b, 0) / length]. *)
Definition calcAvgLatency (buf : list Z) : JS.number :=
  JS.div (inject_Z (JS.sum buf)) (inject_Z (Z.of_nat (length buf))).

(** [Math.floor(sortedLatencies.length * 0.95)]. *)
Definition p95Index (len : nat) : option Z :=
  JS.Math_floor
    (SFmul JS.prec JS.emax (JS.f64_of_Z (Z.of_nat len)) JS.lit_0_95).

(** [sortedLatencies[p95Index] || 0]. *)
Definition calcP95Latency (buf : list Z) : JS.number :=
  let sortedLatencies := JS.sort_asc buf in
  match p95Index (length sortedLatencies) with
  | Some i =>
      if (i <? 0)%Z then JS.Num 0
      else JS.Num (inject_Z (JS.index_or_0 sortedLatencies (Z.to_nat i)))
  | None => JS.Num 0
  end.

Definition calcStats (s : Session) : SessionStats :=
  {| avgLatency := calcAvgLatency (latencyHistoryRef s);
     p95Latency := calcP95Latency (latencyHistoryRef s);
     detectionsPerMin :=
       fold_left (fun sum entry => (sum + snd entry)%Z)
                 (detectionHistoryRef s) 0%Z;
     totalFrames := frameCountRef s;
     latencyHistory := latencyHistoryRef s |}.

(** What one inference request came to: the response, with the clock
    readings [processFrame] takes ([startTime] before the call, [endTime]
    and [now] after it, [frameTime] for [onFrameUpdate]) and the id and
    time it gives the event, or a rejected promise. *)
Inductive Outcome : Type :=
| Resolved (startTime endTime now frameTime : Z)
           (response : InferenceResponse) (eventId : string) (eventTime : Z)
| Rejected (message : string).

(** The part of [processFrame] after [await api.runInference(...)]: the
    [try] body on success, the [catch] on failure.  Painting happens later,
    in the image's [onload] handler, and is modelled in [Overlay]. *)
Definition settle (o : Outcome) (s : Session) : Session :=
  match o with
  | Resolved startTime endTime now frameTime response eventId eventTime =>
      let latency := (endTime - startTime)%Z in
      let count := length (r_detections response) in
      let s1 :=
        {| latencyHistoryRef := recordLatency (latencyHistoryRef s) latency;
           detectionHistoryRef :=
             recordDetections (detectionHistoryRef s) now (Z.of_nat count);
           frameCountRef := S (frameCountRef s);
           currentLatency := latency;
           detectionCount := count;
           sessionStats := sessionStats s;
           detectionEvents := detectionEvents s;
           lastFrameTime := Some frameTime;
           toasts := toasts s |} in
      let events :=
        if 0 <? count
        then Store.handleDetection
               {| id := eventId; timestamp := eventTime;
                  detections := r_detections response;
                  thumbnail := r_encoded_image response;
                  metadata := r_metadata response |}
               (detectionEvents s1)
        else detectionEvents s1 in
      {| latencyHistoryRef := latencyHistoryRef s1;
         detectionHistoryRef := detectionHistoryRef s1;
         frameCountRef := frameCountRef s1;
         currentLatency := currentLatency s1;
         detectionCount := detectionCount s1;
         sessionStats := calcStats s1;
         detectionEvents := events;
         lastFrameTime := lastFrameTime s1;
         toasts := toasts s1 |}
  | Rejected _ =>
      {| latencyHistoryRef := latencyHistoryRef s;
         detectionHistoryRef := detectionHistoryRef s;
         frameCountRef := frameCountRef s;
         currentLatency := currentLatency s;
         detectionCount := detectionCount s;
         sessionStats := sessionStats s;
         detectionEvents := detectionEvents s;
         lastFrameTime := lastFrameTime s;
         toasts := toasts s ++ ["Inference Failed"%string] |}
  end.

(** A session: the outcomes of the inference requests, in settling order. *)
Definition run (os : list Outcome) (s : Session) : Session :=
  fold_left (fun s o => settle o s) os s.

(** The latency samples a run records, oldest first. *)
Fixpoint samples (os : list Outcome) : list Z :=
  match os with
  | [] => []
  | Resolved startTime endTime _ _ _ _ _ :: os' =>
      (endTime - startTime)%Z :: samples os'
  | Rejected _ :: os' => samples os'
  end.

(** The last [n] elements of a list. *)
Definition lastn {A : Type} (n : nat) (l : list A) : list A :=
  skipn (length l - n) l.

(** The arithmetic mean of a non-empty list of integers. *)
Definition mean (l : list Z) : Q :=
  inject_Z (fold_right Z.add 0%Z l) / inject_Z (Z.of_nat (length l)).

End Telemetry.

(* ------------------------------------------------------------------ *)
(** ** Detection list filter ([components/detections-list.tsx]) *)

Module DetectionsList.

(** The [filteredDetections] memo.  [minConfidence] is an integer: it is
    only ever set to [Number.parseInt(...) || 0]. *)
Definition filteredDetections (store : list DetectionEvent)
    (filterLabel : string) (minConfidence : Z) : list DetectionEvent :=
  filter
    (fun event =>
       let hasMatchingLabel :=
         String.eqb filterLabel "all"
         || existsb (fun d => String.eqb (label d) filterLabel)
                    (detections event) in
       let hasMinConfidence :=
         existsb (fun d => Qle_bool (inject_Z minConfidence / 100)
                                    (confidence d))
                 (detections event) in
       hasMatchingLabel && hasMinConfidence)
    store.

End DetectionsList.

(* ------------------------------------------------------------------ *)
(** ** Overlay renderer ([drawBoundingBoxes]) *)

Module Overlay.

(** What has been painted on a canvas since it was last cleared. *)
Inductive Paint : Type :=
| StrokeRect (x y w h : JS.number) (strokeStyle : string) (lineWidth : Q)
| FillRect (x y w h : JS.number) (fillStyle : string)
| FillText (text : string) (x y : JS.number) (font fillStyle : string)
| DrawImage (w h : JS.number).

(** A canvas with its 2D context: the drawing state the code sets and the
    surface, oldest paint first.  [context2d] is [false] when
    [getContext("2d")] returns [null]. *)
Record Canvas : Type := {
  width : Z;
  height : Z;
  context2d : bool;
  strokeStyle : string;
  lineWidth : Q;
  font : string;
  fillStyle : string;
  surface : list Paint
}.

Definition set_surface (s : list Paint) (c : Canvas) : Canvas :=
  {| width := width c; height := height c; context2d := context2d c;
     strokeStyle := strokeStyle c; lineWidth := lineWidth c;
     font := font c; fillStyle := fillStyle c; surface := s |}.

Definition set_stroke (style : string) (lw : Q) (c : Canvas) : Canvas :=
  {| width := width c; height := height c; context2d := context2d c;
     strokeStyle := style; lineWidth := lw;
     font := font c; fillStyle := fillStyle c; surface := surface c |}.

Definition set_font (f : string) (c : Canvas) : Canvas :=
  {| width := width c; height := height c; context2d := context2d c;
     strokeStyle := strokeStyle c; lineWidth := lineWidth c;
     font := f; fillStyle := fillStyle c; surface := surface c |}.

Definition set_fillStyle (f : string) (c : Canvas) : Canvas :=
  {| width := width c; height := height c; context2d := context2d c;
     strokeStyle := strokeStyle c; lineWidth := lineWidth c;
     font := font c; fillStyle := f; surface := surface c |}.

Definition paint (p : Paint) (c : Canvas) : Canvas :=
  set_surface (surface c ++ [p]) c.

(** [ctx.clearRect(0, 0, canvas.width, canvas.height)]: the whole canvas. *)
Definition clearRect_all (c : Canvas) : Canvas := set_surface [] c.

Definition strokeRect (x y w h : JS.number) (c : Canvas) : Canvas :=
  paint (StrokeRect x y w h (strokeStyle c) (lineWidth c)) c.

Definition fillRect (x y w h : JS.number) (c : Canvas) : Canvas :=
  paint (FillRect x y w h (fillStyle c)) c.

Definition fillText (text : string) (x y : JS.number) (c : Canvas) : Canvas :=
  paint (FillText text x y (font c) (fillStyle c)) c.

Section Platform.

(** Platform functions the renderer calls: the width [measureText] reports
    for a text in a font, and [Number.prototype.toFixed(0)]. *)
Variable measureText : string -> string -> JS.number.
Variable toFixed0 : JS.number -> string.

(** The body of [detections.forEach((detection) => ...)]. *)
Definition drawDetection (scaleX scaleY : JS.number)
    (c : Canvas) (detection : BoundingBox) : Canvas :=
  let x := JS.mul (JS.Num (x_min detection)) scaleX in
  let y := JS.mul (JS.Num (y_min detection)) scaleY in
  let w := JS.mul (JS.Num (x_max detection - x_min detection)) scaleX in
  let h := JS.mul (JS.Num (y_max detection - y_min detection)) scaleY in
  let c := strokeRect x y w h (set_stroke "#3b82f6" 2 c) in
  let text :=
    (label detection ++ " ("
       ++ toFixed0 (JS.mul (JS.Num (confidence detection)) (JS.Num 100))
       ++ "%)")%string in
  let c := set_font "12px monospace" c in
  let textWidth := measureText (font c) text in
  let textHeight := 16 in
  let c :=
    fillRect x (JS.sub (JS.sub y (JS.Num textHeight)) (JS.Num 4))
             (JS.add textWidth (JS.Num 8)) (JS.Num (textHeight + 4))
             (set_fillStyle "rgba(59, 130, 246, 0.8)" c) in
  fillText text (JS.add x (JS.Num 4)) (JS.sub y (JS.Num 6))
           (set_fillStyle "white" c).

Definition drawBoundingBoxes (showOverlay : bool) (canvas : Canvas)
    (dets : list BoundingBox) (imageWidth imageHeight : Z) : Canvas :=
  if negb (context2d canvas) || negb showOverlay then canvas
  else
    let c := clearRect_all canvas in
    let scaleX := JS.div (inject_Z (width c)) (inject_Z imageWidth) in
    let scaleY := JS.div (inject_Z (height c)) (inject_Z imageHeight) in
    fold_left (drawDetection scaleX scaleY) dets c.

(** The three paints one detection adds, as [drawDetection] computes them. *)
Definition paintsOf (scaleX scaleY : JS.number) (detection : BoundingBox)
    : list Paint :=
  let x := JS.mul (JS.Num (x_min detection)) scaleX in
  let y := JS.mul (JS.Num (y_min detection)) scaleY in
  let text :=
    (label detection ++ " ("
       ++ toFixed0 (JS.mul (JS.Num (confidence detection)) (JS.Num 100))
       ++ "%)")%string in
  [ StrokeRect x y
      (JS.mul (JS.Num (x_max detection - x_min detection)) scaleX)
      (JS.mul (JS.Num (y_max detection - y_min detection)) scaleY)
      "#3b82f6" 2;
    FillRect x (JS.sub (JS.sub y (JS.Num 16)) (JS.Num 4))
      (JS.add (measureText "12px monospace" text) (JS.Num 8))
      (JS.Num (16 + 4)) "rgba(59, 130, 246, 0.8)";
    FillText text (JS.add x (JS.Num 4)) (JS.sub y (JS.Num 6))
      "12px monospace" "white" ].

End Platform.

End Overlay.

(* ------------------------------------------------------------------ *)
(** ** Health poller ([app/page.tsx], [pollHealth]) *)

Module Health.

Inductive Status : Type := ok | degraded.

Record Camera : Type := {
  available : bool;
  using_mock : bool;
  width : Q;
  height : Q;
  fps : Q
}.

Record Model : Type := {
  loaded : bool;
  path : option string;
  autoload : option bool
}.

Record HealthStatus : Type := {
  status : Status;
  camera : Camera;
  model : Model
}.

(** The page state the poller writes. *)
Record Page : Type := {
  health : option HealthStatus;
  lastHealthUpdate : option Z;
  toasts : list string
}.

Definition initial : Page :=
  {| health := None; lastHealthUpdate := None; toasts := [] |}.

(** What [await api.getHealth()] came to. *)
Inductive Poll : Type :=
| Succeeded (healthData : HealthStatus) (now : Z)
| Failed.

(** [{ ...prev, status: "degraded" }]. *)
Definition degrade (prev : HealthStatus) : HealthStatus :=
  {| status := degraded; camera := camera prev; model := model prev |}.

Definition pollHealth (r : Poll) (p : Page) : Page :=
  match r with
  | Succeeded healthData now =>
      {| health := Some healthData; lastHealthUpdate := Some now;
         toasts := toasts p |}
  | Failed =>
      {| health := match health p with
                   | Some prev => Some (degrade prev)
                   | None => None
                   end;
         lastHealthUpdate := lastHealthUpdate p;
         toasts := toasts p ++ ["Connection Error"%string] |}
  end.

(** The polls of a page's life, in order. *)
Definition polls (rs : list Poll) (p : Page) : Page :=
  fold_left (fun p r => pollHealth r p) rs p.

End Health.

(* ------------------------------------------------------------------ *)
(** ** Streaming scheduler (the [LiveView] component)

    What a render of the component sees: its hook state and its props.
    Every callback built by a render ([startStream], [processFrame], the
    function given to [setInterval]) reads these values as they were in
    that render.  [callbacks] stands for the identity of the callbacks the
    parent passes ([onDetection], [onStatsUpdate], [onFrameUpdate]); it
    changes when the parent re-renders with new functions. *)

Module LiveView.

Record Render : Type := {
  fps : Z;
  isStreaming : bool;
  isModelLoaded : bool;
  isProcessing : bool;
  showOverlay : bool;
  callbacks : nat
}.

Definition Render_eqb (a b : Render) : bool :=
  (fps a =? fps b)%Z
  && Bool.eqb (isStreaming a) (isStreaming b)
  && Bool.eqb (isModelLoaded a) (isModelLoaded b)
  && Bool.eqb (isProcessing a) (isProcessing b)
  && Bool.eqb (showOverlay a) (showOverlay b)
  && (callbacks a =? callbacks b)%nat.

(** An interval timer of the platform, with the closure it calls. *)
Record Timer : Type := {
  timerId : nat;
  interval : JS.number;
  callback : Render
}.

(** The component between two events.
    - [view]: current hook state and props;
    - [lastDeps]: the render whose values the restart effect last saw
      (its dependencies [fps], [isStreaming], [startStream], [stopStream]
      are determined by the fields of [Render]);
    - [streamIntervalRef], and the timers alive on the platform;
    - [inferenceCalls]: calls of [api.runInference] so far; [pending]:
      the requests whose promise has not settled, each with the number of
      its call;
    - [session]: the refs and page state of [Telemetry]. *)
Record State : Type := {
  view : Render;
  lastDeps : Render;
  streamIntervalRef : option nat;
  timers : list Timer;
  nextTimerId : nat;
  inferenceCalls : nat;
  pending : list (nat * InferenceRequest);
  session : Telemetry.Session
}.

Definition set_view (v : Render) (st : State) : State :=
  {| view := v; lastDeps := lastDeps st;
     streamIntervalRef := streamIntervalRef st; timers := timers st;
     nextTimerId := nextTimerId st; inferenceCalls := inferenceCalls st;
     pending := pending st; session := session st |}.

Definition set_lastDeps (v : Render) (st : State) : State :=
  {| view := view st; lastDeps := v;
     streamIntervalRef := streamIntervalRef st; timers := timers st;
     nextTimerId := nextTimerId st; inferenceCalls := inferenceCalls st;
     pending := pending st; session := session st |}.

Definition set_session (s : Telemetry.Session) (st : State) : State :=
  {| view := view st; lastDeps := lastDeps st;
     streamIntervalRef := streamIntervalRef st; timers := timers st;
     nextTimerId := nextTimerId st; inferenceCalls := inferenceCalls st;
     pending := pending st; session := s |}.

Definition setIsStreaming (b : bool) (st : State) : State :=
  set_view {| fps := fps (view st); isStreaming := b;
              isModelLoaded := isModelLoaded (view st);
              isProcessing := isProcessing (view st);
              showOverlay := showOverlay (view st);
              callbacks := callbacks (view st) |} st.

Definition setIsProcessing (b : bool) (st : State) : State :=
  set_view {| fps := fps (view st); isStreaming := isStreaming (view st);
              isModelLoaded := isModelLoaded (view st);
              isProcessing := b;
              showOverlay := showOverlay (view st);
              callbacks := callbacks (view st) |} st.

Definition setFps (n : Z) (st : State) : State :=
  set_view {| fps := n; isStreaming := isStreaming (view st);
              isModelLoaded := isModelLoaded (view st);
              isProcessing := isProcessing (view st);
              showOverlay := showOverlay (view st);
              callbacks := callbacks (view st) |} st.

Definition setShowOverlay (b : bool) (st : State) : State :=
  set_view {| fps := fps (view st); isStreaming := isStreaming (view st);
              isModelLoaded := isModelLoaded (view st);
              isProcessing := isProcessing (view st);
              showOverlay := b;
              callbacks := callbacks (view st) |} st.

(** The parent re-renders: a new [isModelLoaded] and new callbacks. *)
Definition setProps (loaded : bool) (st : State) : State :=
  set_view {| fps := fps (view st); isStreaming := isStreaming (view st);
              isModelLoaded := loaded;
              isProcessing := isProcessing (view st);
              showOverlay := showOverlay (view st);
              callbacks := S (callbacks (view st)) |} st.

Definition toast (title : string) (st : State) : State :=
  let s := session st in
  set_session
    {| Telemetry.latencyHistoryRef := Telemetry.latencyHistoryRef s;
       Telemetry.detectionHistoryRef := Telemetry.detectionHistoryRef s;
       Telemetry.frameCountRef := Telemetry.frameCountRef s;
       Telemetry.currentLatency := Telemetry.currentLatency s;
       Telemetry.detectionCount := Telemetry.detectionCount s;
       Telemetry.sessionStats := Telemetry.sessionStats s;
       Telemetry.detectionEvents := Telemetry.detectionEvents s;
       Telemetry.lastFrameTime := Telemetry.lastFrameTime s;
       Telemetry.toasts := Telemetry.toasts s ++ [title] |} st.

(** [setInterval(cb, ms)] and [clearInterval(id)]. *)
Definition setInterval (cb : Render) (ms : JS.number) (st : State)
    : State :=
  let id := nextTimerId st in
  {| view := view st; lastDeps := lastDeps st;
     streamIntervalRef := Some id;
     timers := timers st ++ [{| timerId := id; interval := ms;
                                callback := cb |}];
     nextTimerId := S id; inferenceCalls := inferenceCalls st;
     pending := pending st; session := session st |}.

Definition clearInterval (id : nat) (st : State) : State :=
  {| view := view st; lastDeps := lastDeps st;
     streamIntervalRef := None;
     timers := filter (fun t => negb (timerId t =? id)%nat) (timers st);
     nextTimerId := nextTimerId st; inferenceCalls := inferenceCalls st;
     pending := pending st; session := session st |}.

(** [processFrame] up to its [await]: the guard, [setIsProcessing(true)]
    and the call of [api.runInference]. *)
Definition processFrame (r : Render) (captureFromCamera : bool)
    (imageBase64 : option string) (st : State) : State :=
  if negb (isModelLoaded r) then toast "Model Not Loaded" st
  else
    let st := setIsProcessing true st in
    let request :=
      {| capture_from_camera := captureFromCamera;
         image_base64 := imageBase64; return_image := true |} in
    {| view := view st; lastDeps := lastDeps st;
       streamIntervalRef := streamIntervalRef st; timers := timers st;
       nextTimerId := nextTimerId st;
       inferenceCalls := S (inferenceCalls st);
       pending := pending st ++ [(inferenceCalls st, request)];
       session := session st |}.

(** [processFrame] after its [await]: the [try] body or the [catch], then
    [finally { setIsProcessing(false) }]. *)
Definition processFrame_settled (call : nat) (o : Telemetry.Outcome)
    (st : State) : State :=
  let st := set_session (Telemetry.settle o (session st)) st in
  let st := setIsProcessing false st in
  {| view := view st; lastDeps := lastDeps st;
     streamIntervalRef := streamIntervalRef st; timers := timers st;
     nextTimerId := nextTimerId st; inferenceCalls := inferenceCalls st;
     pending := filter (fun p => negb (fst p =? call)%nat) (pending st);
     session := session st |}.

Definition startStream (r : Render) (st : State) : State :=
  if negb (isModelLoaded r) then toast "Model Not Loaded" st
  else
    setInterval r (JS.div 1000 (inject_Z (fps r))) (setIsStreaming true st).

Definition stopStream (st : State) : State :=
  let st := setIsStreaming false st in
  match streamIntervalRef st with
  | Some id => clearInterval id st
  | None => st
  end.

(** The function given to [setInterval]: [if (!isProcessing) processFrame()]. *)
Definition tick (r : Render) (st : State) : State :=
  if negb (isProcessing r) then processFrame r true None st else st.

(** The effect [if (isStreaming) { stopStream(); startStream() }]. *)
Definition restartEffect (r : Render) (st : State) : State :=
  if isStreaming r then startStream r (stopStream st) else st.

(** One render: the effect runs when a dependency differs from the
    previous render's. *)
Definition renderOnce (st : State) : State :=
  let r := view st in
  if Render_eqb r (lastDeps st) then st
  else restartEffect r (set_lastDeps r st).

(** Rendering until nothing changes.  The effect can change [isStreaming]
    once (a restart refused because the model is not loaded), so two
    renders are enough ([commit_settled] below). *)
Definition commit (st : State) : State := renderOnce (renderOnce st).

(** What can happen to the component. *)
Inductive Event : Type :=
| ClickStart
| ClickStop
| ClickCapture
| ToggleOverlay
| SelectFps (n : Z)
| Upload (base64Data : string)
| Tick (id : nat)
| Settle (call : nat) (o : Telemetry.Outcome)
| Props (loaded : bool).

(** The handler of an event, [None] when the event cannot occur in the
    state: a button that is not rendered or is disabled, a timer that does
    not exist, no promise to settle.  Buttons call the callbacks of the
    latest render. *)
Definition handle (e : Event) (st : State) : option State :=
  let r := view st in
  match e with
  | ClickStart =>
      if negb (isStreaming r) && isModelLoaded r
      then Some (startStream r st) else None
  | ClickStop =>
      if isStreaming r then Some (stopStream st) else None
  | ClickCapture =>
      if isModelLoaded r && negb (isProcessing r)
      then Some (processFrame r true None st) else None
  | ToggleOverlay => Some (setShowOverlay (negb (showOverlay r)) st)
  | SelectFps n => Some (setFps n st)
  | Upload base64Data => Some (processFrame r false (Some base64Data) st)
  | Tick id =>
      match find (fun t => (timerId t =? id)%nat) (timers st) with
      | Some t => Some (tick (callback t) st)
      | None => None
      end
  | Settle call o =>
      if existsb (fun p => (fst p =? call)%nat) (pending st)
      then Some (processFrame_settled call o st) else None
  | Props loaded => Some (setProps loaded st)
  end.

(** An event, then the renders it causes.  The renders are taken to finish
    before the next event: at the selectable rates (1, 2 and 4 frames per
    second) a timer period is at least 250 ms. *)
Definition step (e : Event) (st : State) : option State :=
  match handle e st with
  | Some st' => Some (commit st')
  | None => None
  end.

Fixpoint run (es : list Event) (st : State) : option State :=
  match es with
  | [] => Some st
  | e :: es' =>
      match step e st with
      | Some st' => run es' st'
      | None => None
      end
  end.

Definition initialRender (loaded : bool) : Render :=
  {| fps := 2; isStreaming := false; isModelLoaded := loaded;
     isProcessing := false; showOverlay := true; callbacks := 0 |}.

Definition initial (loaded : bool) : State :=
  {| view := initialRender loaded; lastDeps := initialRender loaded;
     streamIntervalRef := None; timers := []; nextTimerId := 0;
     inferenceCalls := 0; pending := []; session := Telemetry.initial |}.



End LiveView.

(* ------------------------------------------------------------------ *)
(** ** Label choices of the detection list ([uniqueLabels]) *)

Module Labels.

(** [labels.add(x)] on a [Set] kept in insertion order. *)
Definition add (x : string) (labels : list string) : list string :=
  if existsb (String.eqb x) labels then labels else labels ++ [x].

(** The two nested [forEach] loops that fill the set. *)
Definition collect (store : list DetectionEvent) : list string :=
  fold_left
    (fun labels event =>
       fold_left (fun labels d => add (label d) labels)
                 (detections event) labels)
    store [].

(** [Array.prototype.sort()] without a comparator orders strings by their
    code units; the elements of a set are distinct, so the result is the
    one ascending arrangement.  Insertion sort computes it. *)
Fixpoint insert (x : string) (l : list string) : list string :=
  match l with
  | [] => [x]
  | y :: l' => if String.leb x y then x :: l else y :: insert x l'
  end.

Fixpoint sort (l : list string) : list string :=
  match l with
  | [] => []
  | x :: l' => insert x (sort l')
  end.

(** [Array.from(labels).sort()]. *)
Definition uniqueLabels (store : list DetectionEvent) : list string :=
  sort (collect store).

End Labels.

(* ------------------------------------------------------------------ *)
(** ** Painting a frame (the image's [onload] handler in [processFrame]) *)

Module Frame.

(** [a / b] and [a > b] on numbers. *)
Definition divn (a b : JS.number) : JS.number :=
  match a, b with
  | JS.NaN, _ | _, JS.NaN => JS.NaN
  | JS.Num x, JS.Num y => JS.div x y
  | JS.Num _, JS.Infinity _ => JS.Num 0
  | JS.Infinity s, JS.Num y => JS.Infinity (xorb s (JS.Qneg_b y))
  | JS.Infinity _, JS.Infinity _ => JS.NaN
  end.

Definition gt (a b : JS.number) : bool :=
  match a, b with
  | JS.NaN, _ | _, JS.NaN => false
  | JS.Num x, JS.Num y => negb (Qle_bool x y)
  | JS.Infinity s, JS.Num _ => negb s
  | JS.Num _, JS.Infinity s => s
  | JS.Infinity s, JS.Infinity t => negb s && t
  end.

(** The canvas size chosen for an image: as wide as [maxWidth] allows,
    unless that makes it taller than [maxHeight]. *)
Definition fitCanvas (imgWidth imgHeight : Z) : JS.number * JS.number :=
  let maxWidth := JS.Num 800 in
  let maxHeight := JS.Num 600 in
  let aspectRatio := JS.div (inject_Z imgWidth) (inject_Z imgHeight) in
  let canvasWidth := maxWidth in
  let canvasHeight := divn maxWidth aspectRatio in
  if gt canvasHeight maxHeight
  then (JS.mul maxHeight aspectRatio, maxHeight)
  else (canvasWidth, canvasHeight).

(** Assigning a number to [canvas.width] or [canvas.height]: the value is
    converted to [unsigned long] (truncated, modulo 2^32; 0 for [NaN] and
    the infinities), and a value above 2^31 - 1 gives the attribute's
    default.  Setting either dimension resets the context to its default
    state and clears the bitmap. *)
Definition toUnsignedLong (v : JS.number) : Z :=
  match v with
  | JS.Num q => (Z.quot (Qnum q) (Zpos (Qden q)) mod 2 ^ 32)%Z
  | _ => 0%Z
  end.

Definition reflectDimension (default v : Z) : Z :=
  if (v <=? 2147483647)%Z then v else default.

Definition resetTo (w h : Z) (c : Overlay.Canvas) : Overlay.Canvas :=
  {| Overlay.width := w; Overlay.height := h;
     Overlay.context2d := Overlay.context2d c;
     Overlay.strokeStyle := "#000000"; Overlay.lineWidth := 1;
     Overlay.font := "10px sans-serif"; Overlay.fillStyle := "#000000";
     Overlay.surface := [] |}.

Definition setWidth (v : JS.number) (c : Overlay.Canvas) : Overlay.Canvas :=
  resetTo (reflectDimension 300 (toUnsignedLong v)) (Overlay.height c) c.

Definition setHeight (v : JS.number) (c : Overlay.Canvas) : Overlay.Canvas :=
  resetTo (Overlay.width c) (reflectDimension 150 (toUnsignedLong v)) c.

(** [ctx.drawImage(img, 0, 0, w, h)]. *)
Definition drawImage (w h : JS.number) (c : Overlay.Canvas)
    : Overlay.Canvas :=
  Overlay.paint (Overlay.DrawImage w h) c.

Section Platform.

Variable measureText : string -> string -> JS.number.
Variable toFixed0 : JS.number -> string.

(** The [onload] handler of the response image.  It is installed only for
    a canvas whose 2D context exists. *)
Definition onload (showOverlay : bool) (canvas : Overlay.Canvas)
    (imgWidth imgHeight : Z) (dets : list BoundingBox) : Overlay.Canvas :=
  let (canvasWidth, canvasHeight) := fitCanvas imgWidth imgHeight in
  let c := setHeight canvasHeight (setWidth canvasWidth canvas) in
  let c := drawImage canvasWidth canvasHeight c in
  Overlay.drawBoundingBoxes measureText toFixed0 showOverlay c dets
    imgWidth imgHeight.

End Platform.

End Frame.

(* ------------------------------------------------------------------ *)
(** ** Health checks of the page ([pollHealth], [handleSettingsUpdate]) *)

Module Page.





End Page.

(* ------------------------------------------------------------------ *)
(** ** Uploaded images ([handleImageUpload]) *)

Module Upload.

(** [s.split(",")]. *)
Fixpoint split (s : string) : list string :=
  match s with
  | EmptyString => [EmptyString]
  | String c s' =>
      if Ascii.eqb c ","
      then EmptyString :: split s'
      else match split s' with
           | piece :: pieces => String c piece :: pieces
           | [] => [String c EmptyString]
           end
  end.

(** [base64.split(",")[1]]: the data of a data URL, [None] for
    [undefined]. *)
Definition base64Data (base64 : string) : option string :=
  nth_error (split base64) 1.

End Upload.

(* ================================================================== *)
(** * Vocabulary of the properties, and sample data *)

Open Scope nat_scope.

(** ** Telemetry *)

(** The page holds the initial statistics until a sample is recorded, and
    from then on the statistics computed from the buffer. *)
Definition statsFollow (s : Telemetry.Session) : Prop :=
  let buf := Telemetry.latencyHistoryRef s in
  let stats := Telemetry.sessionStats s in
  latencyHistory stats = buf
  /\ match buf with
     | [] => stats = Telemetry.initialStats
     | _ => avgLatency stats = Telemetry.calcAvgLatency buf
            /\ p95Latency stats = Telemetry.calcP95Latency buf
     end.

(** Sixty frames whose latencies are 10, 20, ..., 600 ms. *)
Definition frames_10_to_600 : list Telemetry.Outcome :=
  map (fun n =>
         Telemetry.Resolved 0 (10 * Z.of_nat n) (10 * Z.of_nat n)
           (10 * Z.of_nat n)
           {| r_detections := [];
              r_metadata := {| model_path := None; detection_count := 0;
                               inference_ms := 0; note := None |};
              r_encoded_image := None |}
           "" (10 * Z.of_nat n))
      (seq 1 60).

Definition isResolved (o : Telemetry.Outcome) : bool :=
  match o with
  | Telemetry.Resolved _ _ _ _ _ _ _ => true
  | Telemetry.Rejected _ => false
  end.

(** The window entry each successful frame pushes: its [now] and the
    number of its detections. *)
Fixpoint windowEntries (os : list Telemetry.Outcome) : list (Z * Z) :=
  match os with
  | [] => []
  | Telemetry.Resolved _ _ now _ response _ _ :: os' =>
      (now, Z.of_nat (length (r_detections response))) :: windowEntries os'
  | Telemetry.Rejected _ :: os' => windowEntries os'
  end.

(** An entry is less than 60 s older than [now]. *)
Definition withinWindow (now : Z) (entry : Z * Z) : bool :=
  (now - fst entry <? 60000)%Z.

(** The events the successful frames report, oldest first: one for each
    response with at least one detection. *)
Fixpoint reportedEvents (os : list Telemetry.Outcome) : list DetectionEvent :=
  match os with
  | [] => []
  | Telemetry.Resolved _ _ _ _ response eventId eventTime :: os' =>
      if 0 <? length (r_detections response)
      then {| id := eventId; timestamp := eventTime;
              detections := r_detections response;
              thumbnail := r_encoded_image response;
              metadata := r_metadata response |} :: reportedEvents os'
      else reportedEvents os'
  | Telemetry.Rejected _ :: os' => reportedEvents os'
  end.

(** A session with its toasts forgotten. *)
Definition clearToasts (s : Telemetry.Session) : Telemetry.Session :=
  {| Telemetry.latencyHistoryRef := Telemetry.latencyHistoryRef s;
     Telemetry.detectionHistoryRef := Telemetry.detectionHistoryRef s;
     Telemetry.frameCountRef := Telemetry.frameCountRef s;
     Telemetry.currentLatency := Telemetry.currentLatency s;
     Telemetry.detectionCount := Telemetry.detectionCount s;
     Telemetry.sessionStats := Telemetry.sessionStats s;
     Telemetry.detectionEvents := Telemetry.detectionEvents s;
     Telemetry.lastFrameTime := Telemetry.lastFrameTime s;
     Telemetry.toasts := [] |}.

(** A response with the given boxes, and a frame that takes [latency] ms
    and is stamped [now]. *)
Definition response_of (boxes : list BoundingBox) : InferenceResponse :=
  {| r_detections := boxes;
     r_metadata := {| model_path := None;
                      detection_count := Z.of_nat (length boxes);
                      inference_ms := 0; note := None |};
     r_encoded_image := None |}.

Definition frame_at (now latency : Z) (boxes : list BoundingBox)
    : Telemetry.Outcome :=
  Telemetry.Resolved (now - latency) now now now (response_of boxes) "" now.

(** ** Detection list *)


Definition box (l : string) (c : Q) : BoundingBox :=
  {| label := l; confidence := c;
     x_min := 0; y_min := 0; x_max := 1; y_max := 1 |}.

Definition event_of (i : string) (b : BoundingBox) : DetectionEvent :=
  {| id := i; timestamp := 0; detections := [b]; thumbnail := None;
     metadata := {| model_path := None; detection_count := 1;
                    inference_ms := 0; note := None |} |}.

(** The store [[{car: 0.9}, {dog: 0.4}, {car: 0.3}]]. *)
Definition car_dog_car : list DetectionEvent :=
  [ event_of "1" (box "car" (9 # 10));
    event_of "2" (box "dog" (4 # 10));
    event_of "3" (box "car" (3 # 10)) ].

(** ** Overlay *)

(** A 400 x 200 canvas that still shows the box of an earlier frame. *)
Definition stale_box : Overlay.Paint :=
  Overlay.StrokeRect (JS.Num 0) (JS.Num 0) (JS.Num 200) (JS.Num 100)
    "#3b82f6" 2.

Definition used_canvas : Overlay.Canvas :=
  {| Overlay.width := 400; Overlay.height := 200;
     Overlay.context2d := true;
     Overlay.strokeStyle := "#3b82f6"; Overlay.lineWidth := 2;
     Overlay.font := "12px monospace"; Overlay.fillStyle := "white";
     Overlay.surface := [stale_box] |}.

(** ** Health *)

Definition mock_health : Health.HealthStatus :=
  {| Health.status := Health.ok;
     Health.camera := {| Health.available := true; Health.using_mock := true;
                         Health.width := 640; Health.height := 480;
                         Health.fps := 2 |};
     Health.model := {| Health.loaded := true;
                        Health.path := Some "/models/yolo11n.pt"%string;
                        Health.autoload := Some true |} |}.




(** ** Uploads *)

Fixpoint hasComma (s : string) : bool :=
  match s with
  | EmptyString => false
  | String c s' => Ascii.eqb c "," || hasComma s'
  end.

(** ** Scheduler *)

Import LiveView.

(** The timer [startStream] creates from the render [r]. *)
Definition timerOf (id : nat) (r : Render) : Timer :=
  {| timerId := id; interval := JS.div 1000 (inject_Z (fps r));
     callback := r |}.

(** While streaming, [streamIntervalRef] names the one timer alive, and its
    callback is the closure of the render the restart effect last saw;
    while stopped no timer is alive. *)
Definition timersOK (st : State) : Prop :=
  if isStreaming (view st)
  then exists id, streamIntervalRef st = Some id
                  /\ timers st = [timerOf id (lastDeps st)]
  else streamIntervalRef st = None /\ timers st = [].

Definition modelOK (st : State) : Prop :=
  isStreaming (lastDeps st) = true -> isModelLoaded (lastDeps st) = true.

(** Nothing is left to render: the effect has seen the current values. *)
Definition settled (st : State) : Prop := lastDeps st = view st.

Definition Inv (st : State) : Prop := settled st /\ modelOK st /\ timersOK st.

(** The outcomes of the requests that settle in a run, in order. *)
Fixpoint settledOutcomes (es : list Event) : list Telemetry.Outcome :=
  match es with
  | [] => []
  | Settle _ o :: es' => o :: settledOutcomes es'
  | _ :: es' => settledOutcomes es'
  end.

(** The busy flag is set only while a request is in flight. *)
Definition busyMeansPending (st : State) : Prop :=
  isProcessing (view st) = true -> pending st <> [].


Definition no_detections : InferenceResponse :=
  {| r_detections := [];
     r_metadata := {| model_path := None; detection_count := 0;
                      inference_ms := 120; note := None |};
     r_encoded_image := None |}.

Definition first_resolves : Telemetry.Outcome :=
  Telemetry.Resolved 0 130 130 130 no_detections "" 130.

Definition upload_resolves : Telemetry.Outcome :=
  Telemetry.Resolved 40 90 90 90 no_detections "" 90.

(** The component after [Start] and the first tick: one request in
    flight. *)
Definition after_first_tick : State :=
  Eval vm_compute in
    match run [ClickStart; Tick 1] (initial true) with
    | Some st => st
    | None => initial true
    end.

(* ================================================================== *)
(** * Properties *)

(* ------------------------------------------------------------------ *)
(** ** Lists and numbers *)

Section ListFacts.

Context {A : Type}.

Lemma tl_skipn (k : nat) (l : list A) : tl (skipn k l) = skipn (S k) l.
Proof.
  revert l; induction k as [|k IH]; intros [|a l]; simpl; auto.
Qed.

Lemma lastn_length (n : nat) (l : list A) :
  length (Telemetry.lastn n l) = Nat.min n (length l).
Proof. unfold Telemetry.lastn. rewrite length_skipn. lia. Qed.

Lemma lastn_all (n : nat) (l : list A) :
  length l <= n -> Telemetry.lastn n l = l.
Proof.
  intros H. unfold Telemetry.lastn.
  replace (length l - n) with 0 by lia. reflexivity.
Qed.

Lemma lastn_snoc (n : nat) (l : list A) (x : A) :
  n <= length l ->
  Telemetry.lastn (S n) (l ++ [x]) = Telemetry.lastn n l ++ [x].
Proof.
  intros H. unfold Telemetry.lastn.
  rewrite length_app; simpl.
  replace (length l + 1 - S n) with (length l - n) by lia.
  rewrite skipn_app.
  replace (length l - n - length l) with 0 by lia. reflexivity.
Qed.

End ListFacts.

Lemma fold_left_add (l : list Z) (z : Z) :
  fold_left Z.add l z = (z + fold_right Z.add 0 l)%Z.
Proof.
  revert z; induction l as [|a l IH]; intros z; simpl; [lia|].
  rewrite IH. lia.
Qed.

Lemma sum_fold_right (l : list Z) : JS.sum l = fold_right Z.add 0%Z l.
Proof. unfold JS.sum. rewrite fold_left_add. lia. Qed.

Lemma index_or_0_nth (arr : list Z) (i : nat) :
  JS.index_or_0 arr i = nth i arr 0%Z.
Proof.
  unfold JS.index_or_0.
  destruct (nth_error arr i) as [v|] eqn:E.
  - rewrite (nth_error_nth _ _ _ E).
    destruct (Z.eqb_spec v 0); congruence.
  - apply nth_error_None in E. now rewrite nth_overflow.
Qed.

(** *** Sorting *)

Lemma insert_asc_perm (x : Z) (l : list Z) :
  Permutation (JS.insert_asc x l) (x :: l).
Proof.
  induction l as [|y l IH]; simpl; auto.
  destruct (x - y <=? 0)%Z; auto.
  rewrite IH. apply perm_swap.
Qed.

Lemma sort_asc_perm (l : list Z) : Permutation (JS.sort_asc l) l.
Proof.
  induction l as [|x l IH]; simpl; auto.
  rewrite insert_asc_perm. now constructor.
Qed.

Lemma sort_asc_length (l : list Z) : length (JS.sort_asc l) = length l.
Proof. apply Permutation_length, sort_asc_perm. Qed.

Lemma insert_asc_sorted (x : Z) (l : list Z) :
  Sorted Z.le l -> Sorted Z.le (JS.insert_asc x l).
Proof.
  induction l as [|y l IH]; intros S; simpl.
  - repeat constructor.
  - destruct (Z.leb_spec (x - y) 0).
    + constructor; auto. constructor. lia.
    + inversion S as [|? ? S' Hd]; subst.
      constructor; auto.
      destruct l as [|z l]; simpl.
      * constructor. lia.
      * destruct (Z.leb_spec (x - z) 0); constructor; try lia.
        inversion Hd; subst. assumption.
Qed.

Lemma sort_asc_sorted (l : list Z) : Sorted Z.le (JS.sort_asc l).
Proof.
  induction l as [|x l IH]; simpl; [constructor|].
  now apply insert_asc_sorted.
Qed.

(** *** The latency buffer is the last 60 samples *)

Lemma recordLatency_lastn (s : list Z) (x : Z) :
  Telemetry.recordLatency (Telemetry.lastn 60 s) x
  = Telemetry.lastn 60 (s ++ [x]).
Proof.
  unfold Telemetry.recordLatency.
  assert (L : length (Telemetry.lastn 60 s ++ [x])
              = Nat.min 60 (length s) + 1)
    by (rewrite length_app, lastn_length; reflexivity).
  rewrite L.
  destruct (Nat.ltb_spec 60 (Nat.min 60 (length s) + 1)) as [H|H].
  - rewrite lastn_snoc by lia.
    unfold Telemetry.lastn.
    replace (length s - 59) with (S (length s - 60)) by lia.
    rewrite <- tl_skipn.
    destruct (skipn (length s - 60) s) as [|a r] eqn:E; [|reflexivity].
    apply (f_equal (@length Z)) in E. rewrite length_skipn in E.
    cbn [length] in E. lia.
  - rewrite (@lastn_all Z 60 s) by lia.
    rewrite (@lastn_all Z 60 (s ++ [x])); [reflexivity|].
    rewrite length_app; cbn [length]. lia.
Qed.

Lemma recordLatency_nonempty (buf : list Z) (x : Z) :
  Telemetry.recordLatency buf x <> [].
Proof.
  unfold Telemetry.recordLatency.
  destruct (Nat.ltb_spec 60 (length (buf ++ [x]))) as [H|H].
  - destruct (buf ++ [x]) as [|a [|b r]]; cbn [length] in H; try lia.
    discriminate.
  - destruct buf; discriminate.
Qed.

Lemma recordLatency_evict (buf : list Z) (x : Z) :
  Telemetry.recordLatency buf x
  = if 60 <=? length buf then tl buf ++ [x] else buf ++ [x].
Proof.
  unfold Telemetry.recordLatency. rewrite length_app; cbn [length].
  destruct (Nat.ltb_spec 60 (length buf + 1)), (Nat.leb_spec 60 (length buf));
    try lia; auto.
  destruct buf as [|a r]; [cbn [length] in *; lia | reflexivity].
Qed.

Lemma run_snoc (os : list Telemetry.Outcome) (o : Telemetry.Outcome)
    (s : Telemetry.Session) :
  Telemetry.run (os ++ [o]) s = Telemetry.settle o (Telemetry.run os s).
Proof. unfold Telemetry.run. now rewrite fold_left_app. Qed.

Lemma samples_snoc (os : list Telemetry.Outcome) (o : Telemetry.Outcome) :
  Telemetry.samples (os ++ [o])
  = Telemetry.samples os ++ Telemetry.samples [o].
Proof.
  induction os as [|a os IH]; [reflexivity|].
  destruct a; simpl; rewrite IH; reflexivity.
Qed.

Lemma latencyHistoryRef_run (os : list Telemetry.Outcome) :
  Telemetry.latencyHistoryRef (Telemetry.run os Telemetry.initial)
  = Telemetry.lastn 60 (Telemetry.samples os).
Proof.
  induction os as [|o os IH] using rev_ind; [reflexivity|].
  rewrite run_snoc, samples_snoc.
  destruct o; simpl.
  - rewrite IH. apply recordLatency_lastn.
  - now rewrite app_nil_r.
Qed.

(** *** The statistics held by the page follow the buffer *)

Lemma statsFollow_settle (o : Telemetry.Outcome) (s : Telemetry.Session) :
  statsFollow s -> statsFollow (Telemetry.settle o s).
Proof.
  intros H. destruct o; [|exact H].
  unfold statsFollow; simpl. split; [reflexivity|].
  pose proof (recordLatency_nonempty (Telemetry.latencyHistoryRef s)
                (endTime - startTime)) as N.
  destruct (Telemetry.recordLatency _ _); [congruence | split; reflexivity].
Qed.

Lemma statsFollow_run (os : list Telemetry.Outcome) :
  statsFollow (Telemetry.run os Telemetry.initial).
Proof.
  induction os as [|o os IH] using rev_ind.
  - split; reflexivity.
  - rewrite run_snoc. now apply statsFollow_settle.
Qed.

Lemma calcAvgLatency_mean (buf : list Z) :
  buf <> [] -> Telemetry.calcAvgLatency buf = JS.Num (Telemetry.mean buf).
Proof.
  intros N. unfold Telemetry.calcAvgLatency, Telemetry.mean, JS.div.
  rewrite sum_fold_right.
  assert (Z : JS.Qzero_b (inject_Z (Z.of_nat (length buf))) = false).
  { destruct buf as [|a r]; [congruence|].
    unfold JS.Qzero_b, Qeq_bool, inject_Z; simpl Qnum; simpl Qden.
    apply Z.eqb_neq. rewrite !Z.mul_1_r.
    change (length (a :: r)) with (S (length r)). lia. }
  now rewrite Z.
Qed.

(** On an empty array the expression [sum / length] would be [0 / 0].  No
    run evaluates it there: [settle] pushes a sample before it computes the
    statistics ([recordLatency_nonempty]). *)
Remark calcAvgLatency_empty : Telemetry.calcAvgLatency [] = JS.NaN.
Proof. reflexivity. Qed.

Lemma calcAvgLatency_numeric (buf : list Z) :
  buf <> [] -> JS.is_numeric (Telemetry.calcAvgLatency buf) = true.
Proof. intros N. now rewrite calcAvgLatency_mean. Qed.

(** On every length the buffer can have, the double product
    [length * 0.95] floors to the exact [floor (95 * length / 100)]. *)
Lemma p95Index_exact (len : nat) :
  len <= 60 ->
  Telemetry.p95Index len = Some (Z.of_nat (len * 95 / 100)).
Proof.
  intros H.
  assert (A : forallb
                (fun n => match Telemetry.p95Index n with
                          | Some i => (i =? Z.of_nat (n * 95 / 100))%Z
                          | None => false
                          end) (seq 0 61) = true)
    by (vm_compute; reflexivity).
  rewrite forallb_forall in A.
  specialize (A len). rewrite in_seq in A.
  specialize (A ltac:(lia)).
  destruct (Telemetry.p95Index len); [|discriminate].
  apply Z.eqb_eq in A. now subst.
Qed.

Lemma calcP95Latency_nth (buf : list Z) :
  length buf <= 60 ->
  Telemetry.calcP95Latency buf
  = JS.Num (inject_Z (nth (length buf * 95 / 100) (JS.sort_asc buf) 0%Z)).
Proof.
  intros H. unfold Telemetry.calcP95Latency.
  rewrite sort_asc_length, (p95Index_exact _ H).
  destruct (Z.ltb_spec (Z.of_nat (length buf * 95 / 100)) 0); [lia|].
  now rewrite Nat2Z.id, index_or_0_nth.
Qed.

(* ------------------------------------------------------------------ *)
(** ** Telemetry aggregator *)

(** C1.  Whatever inference outcomes a session sees, the latency buffer is
    the last 60 recorded samples (all of them while fewer than 60 were
    recorded), so it never holds more than 60; the statistics the page
    holds carry a copy of it; once a sample is recorded the reported
    [avgLatency] is the arithmetic mean of that window; and recording into
    a buffer of 60 drops its oldest sample and appends the new one. *)
Theorem C1_avgLatency_last_60 (os : list Telemetry.Outcome) (x : Z) :
  let s := Telemetry.run os Telemetry.initial in
  let buf := Telemetry.latencyHistoryRef s in
  buf = Telemetry.lastn 60 (Telemetry.samples os)
  /\ length buf = Nat.min 60 (length (Telemetry.samples os))
  /\ length buf <= 60
  /\ latencyHistory (Telemetry.sessionStats s) = buf
  /\ avgLatency (Telemetry.sessionStats s)
     = match Telemetry.samples os with
       | [] => JS.Num 0
       | _ => JS.Num (Telemetry.mean
                        (Telemetry.lastn 60 (Telemetry.samples os)))
       end
  /\ Telemetry.recordLatency buf x
     = if 60 <=? length buf then tl buf ++ [x] else buf ++ [x].
Proof.
  intros s buf.
  assert (B : buf = Telemetry.lastn 60 (Telemetry.samples os))
    by apply latencyHistoryRef_run.
  assert (L : length buf = Nat.min 60 (length (Telemetry.samples os)))
    by (rewrite B; apply lastn_length).
  destruct (statsFollow_run os) as [H1 H2].
  fold s in H1, H2. fold buf in H1, H2.
  repeat split; auto.
  - lia.
  - destruct (Telemetry.samples os) as [|a r] eqn:E.
    + rewrite B in H2. cbn in H2. now rewrite H2.
    + rewrite <- B.
      assert (N : buf <> []).
      { intros Z. rewrite Z in L. cbn [length] in L. lia. }
      destruct buf as [|b r']; [congruence|].
      destruct H2 as [H2 _]. rewrite H2.
      now apply calcAvgLatency_mean.
  - apply recordLatency_evict.
Qed.

(** C4.  In every state a session reaches, the [avgLatency] and
    [p95Latency] the page holds are finite numbers, never [NaN] or an
    infinity; and while the latency buffer is empty the page holds the
    initial statistics, in which every derived metric is zero.  (The
    statistics are only computed after a sample is pushed, so the divisor
    [length] is at least 1 whenever the division runs.) *)
Theorem C4_empty_buffer_zero_stats (os : list Telemetry.Outcome) :
  let s := Telemetry.run os Telemetry.initial in
  let stats := Telemetry.sessionStats s in
  JS.is_numeric (avgLatency stats) = true
  /\ JS.is_numeric (p95Latency stats) = true
  /\ (Telemetry.latencyHistoryRef s = [] ->
      avgLatency stats = JS.Num 0
      /\ p95Latency stats = JS.Num 0
      /\ detectionsPerMin stats = 0%Z
      /\ totalFrames stats = 0).
Proof.
  intros s stats.
  destruct (statsFollow_run os) as [H1 H2].
  fold s in H1, H2. fold stats in H1, H2.
  assert (L : length (Telemetry.latencyHistoryRef s) <= 60).
  { unfold s. rewrite latencyHistoryRef_run, lastn_length. lia. }
  destruct (Telemetry.latencyHistoryRef s) as [|a r] eqn:E.
  - rewrite H2. repeat split; reflexivity.
  - destruct H2 as [Ha Hp]. rewrite Ha, Hp.
    split; [apply calcAvgLatency_numeric; discriminate|].
    split; [now rewrite (calcP95Latency_nth (a :: r) L)|].
    discriminate.
Qed.

(** C5.  Whenever the latency buffer is not empty, the reported
    [p95Latency] is the element at index [floor (0.95 * length)] of the
    buffer sorted ascending, that sorted array being the ascending
    rearrangement of the buffer. *)
Theorem C5_p95_nearest_rank (os : list Telemetry.Outcome)
    (Hne : Telemetry.latencyHistoryRef (Telemetry.run os Telemetry.initial)
           <> []) :
  let s := Telemetry.run os Telemetry.initial in
  let buf := Telemetry.latencyHistoryRef s in
  p95Latency (Telemetry.sessionStats s)
  = JS.Num (inject_Z (nth (length buf * 95 / 100) (JS.sort_asc buf) 0%Z))
  /\ length buf * 95 / 100 < length (JS.sort_asc buf)
  /\ Sorted Z.le (JS.sort_asc buf)
  /\ Permutation (JS.sort_asc buf) buf.
Proof.
  intros s buf.
  destruct (statsFollow_run os) as [_ H2].
  fold s in H2. fold buf in H2. fold s in Hne. fold buf in Hne.
  assert (L : length buf <= 60).
  { unfold buf, s. rewrite latencyHistoryRef_run, lastn_length. lia. }
  split; [|split; [|split]].
  - destruct buf as [|a r] eqn:E; [congruence|].
    destruct H2 as [_ Hp]. rewrite Hp. now apply calcP95Latency_nth.
  - rewrite sort_asc_length.
    destruct buf as [|a r]; [congruence|].
    apply Nat.Div0.div_lt_upper_bound. cbn [length] in *. lia.
  - apply sort_asc_sorted.
  - apply sort_asc_perm.
Qed.

(** C5, on the buffer [10, 20, ..., 600]: [p95Latency] is 580, the value
    at sorted index 57. *)
Lemma C5_p95_of_10_to_600 :
  Telemetry.latencyHistoryRef
    (Telemetry.run frames_10_to_600 Telemetry.initial)
  = map (fun n => (10 * Z.of_nat n)%Z) (seq 1 60)
  /\ p95Latency
       (Telemetry.sessionStats
          (Telemetry.run frames_10_to_600 Telemetry.initial))
     = JS.Num 580.
Proof.
  assert (B : Telemetry.latencyHistoryRef
                (Telemetry.run frames_10_to_600 Telemetry.initial)
              = map (fun n => (10 * Z.of_nat n)%Z) (seq 1 60))
    by (vm_compute; reflexivity).
  split; [exact B|].
  assert (Hne : Telemetry.latencyHistoryRef
                  (Telemetry.run frames_10_to_600 Telemetry.initial) <> [])
    by (rewrite B; discriminate).
  destruct (C5_p95_nearest_rank frames_10_to_600 Hne) as [H _].
  rewrite H, B. vm_compute. reflexivity.
Defined.

(* ------------------------------------------------------------------ *)
(** ** Detection event store *)

Lemma handleDetection_cons (e : DetectionEvent) (prev : list DetectionEvent) :
  Store.handleDetection e prev = e :: firstn 49 prev.
Proof. reflexivity. Qed.

Lemma appendAll_firstn (es pre : list DetectionEvent) :
  Store.appendAll es (firstn 50 pre) = firstn 50 (rev es ++ pre).
Proof.
  revert pre; induction es as [|e es IH]; intros pre; [reflexivity|].
  unfold Store.appendAll in *. cbn [fold_left].
  rewrite handleDetection_cons, firstn_firstn.
  change (e :: firstn (Nat.min 49 50) pre) with (firstn 50 (e :: pre)).
  rewrite IH. cbn [rev]. now rewrite <- app_assoc.
Qed.

(** C3.  The store after any sequence of detection events holds the 50
    most recently reported ones, most recent first, and so never more than
    50; a report puts the new event at the head and keeps the first 49 of
    the previous store, which for a store of 50 drops exactly its last
    entry, the one reported earliest. *)
Theorem C3_store_capped_at_50 (es : list DetectionEvent)
    (e : DetectionEvent) (prev : list DetectionEvent) :
  Store.appendAll es [] = firstn 50 (rev es)
  /\ length (Store.appendAll es []) <= 50
  /\ Store.handleDetection e prev = e :: firstn 49 prev
  /\ length (Store.handleDetection e prev) = Nat.min 50 (S (length prev))
  /\ (length prev = 50 ->
      Store.handleDetection e prev = e :: removelast prev).
Proof.
  assert (A : Store.appendAll es [] = firstn 50 (rev es)).
  { change (@nil DetectionEvent) with (firstn 50 (@nil DetectionEvent)).
    rewrite appendAll_firstn. now rewrite app_nil_r. }
  split; [exact A|].
  split; [rewrite A; apply firstn_le_length|].
  split; [apply handleDetection_cons|].
  split.
  - unfold Store.handleDetection. rewrite length_firstn. reflexivity.
  - intros L. rewrite handleDetection_cons. f_equal.
    destruct (@exists_last _ prev) as [front [x E]].
    { intros Z. rewrite Z in L. discriminate. }
    subst prev. rewrite removelast_last.
    rewrite length_app in L. cbn [length] in L.
    rewrite firstn_app.
    replace (49 - length front) with 0 by lia.
    rewrite firstn_all2 by lia. cbn. now rewrite app_nil_r.
Qed.

(* ------------------------------------------------------------------ *)
(** ** Detection list filter *)


(* ------------------------------------------------------------------ *)
(** ** Overlay renderer *)

Section OverlayFacts.

Variable measureText : string -> string -> JS.number.
Variable toFixed0 : JS.number -> string.

Lemma drawDetection_surface (sx sy : JS.number) (c : Overlay.Canvas)
    (d : BoundingBox) :
  Overlay.surface (Overlay.drawDetection measureText toFixed0 sx sy c d)
  = Overlay.surface c ++ Overlay.paintsOf measureText toFixed0 sx sy d.
Proof.
  unfold Overlay.drawDetection, Overlay.paintsOf.
  cbn. repeat rewrite <- app_assoc. reflexivity.
Qed.

Lemma drawAll_surface (sx sy : JS.number) (dets : list BoundingBox)
    (c : Overlay.Canvas) :
  Overlay.surface
    (fold_left (Overlay.drawDetection measureText toFixed0 sx sy) dets c)
  = Overlay.surface c
    ++ flat_map (Overlay.paintsOf measureText toFixed0 sx sy) dets.
Proof.
  revert c; induction dets as [|d dets IH]; intros c; cbn [fold_left flat_map].
  - now rewrite app_nil_r.
  - rewrite IH, drawDetection_surface. now rewrite <- app_assoc.
Qed.

End OverlayFacts.

(** C8, as the code has it.  With overlay display disabled the paint
    operation returns at once and leaves the canvas exactly as it was: it
    neither clears nor draws.  With overlay display enabled (and a 2D
    context) it clears the whole canvas first, so that afterwards the
    surface holds the box, tag and text of each detection of this call, in
    order, and nothing painted earlier. *)
Theorem C8_overlay_paint (measureText : string -> string -> JS.number)
    (toFixed0 : JS.number -> string) (canvas : Overlay.Canvas)
    (dets : list BoundingBox) (imageWidth imageHeight : Z) :
  Overlay.drawBoundingBoxes measureText toFixed0 false canvas dets
    imageWidth imageHeight = canvas
  /\ (Overlay.context2d canvas = true ->
      Overlay.surface
        (Overlay.drawBoundingBoxes measureText toFixed0 true canvas dets
           imageWidth imageHeight)
      = flat_map
          (Overlay.paintsOf measureText toFixed0
             (JS.div (inject_Z (Overlay.width canvas)) (inject_Z imageWidth))
             (JS.div (inject_Z (Overlay.height canvas))
                     (inject_Z imageHeight)))
          dets
      /\ length
           (Overlay.surface
              (Overlay.drawBoundingBoxes measureText toFixed0 true canvas
                 dets imageWidth imageHeight))
         = 3 * length dets).
Proof.
  split.
  - unfold Overlay.drawBoundingBoxes.
    now rewrite orb_true_r.
  - intros C.
    assert (S : Overlay.surface
                  (Overlay.drawBoundingBoxes measureText toFixed0 true
                     canvas dets imageWidth imageHeight)
                = flat_map
                    (Overlay.paintsOf measureText toFixed0
                       (JS.div (inject_Z (Overlay.width canvas))
                               (inject_Z imageWidth))
                       (JS.div (inject_Z (Overlay.height canvas))
                               (inject_Z imageHeight)))
                    dets).
    { unfold Overlay.drawBoundingBoxes. rewrite C. cbn [negb orb].
      rewrite drawAll_surface. reflexivity. }
    split; [exact S|].
    rewrite S. clear S.
    induction dets as [|d dets IH]; [reflexivity|].
    cbn [flat_map]. rewrite length_app, IH. cbn [length Overlay.paintsOf].
    lia.
Qed.

(** C8, against the specification: painting with overlay display disabled
    does not clear; the box of the earlier frame is still on the surface. *)
Lemma C8_disabled_paint_keeps_prior_paint :
  Overlay.surface
    (Overlay.drawBoundingBoxes (fun _ _ => JS.Num 50) (fun _ => "90"%string)
       false used_canvas [box "car" (9 # 10)] 200 100)
  = [stale_box].
Proof. reflexivity. Qed.

(* ------------------------------------------------------------------ *)
(** ** Health poller *)

Lemma polls_snoc (rs : list Health.Poll) (r : Health.Poll) (p : Health.Page) :
  Health.polls (rs ++ [r]) p = Health.pollHealth r (Health.polls rs p).
Proof. unfold Health.polls. now rewrite fold_left_app. Qed.

Lemma health_stays (rs : list Health.Poll) (p : Health.Page) :
  Health.health p <> None -> Health.health (Health.polls rs p) <> None.
Proof.
  intros H. induction rs as [|r rs IH] using rev_ind; [exact H|].
  rewrite polls_snoc. destruct r; cbn; [discriminate|].
  destruct (Health.health (Health.polls rs p)); [discriminate | exact IH].
Qed.

(** C9.  When a status is held and a poll fails, the page holds a status
    again: its [status] is ["degraded"] and its camera and model fields are
    those of the held one.  From then on, whatever the later polls come to,
    the page never goes back to holding no status. *)
Theorem C9_failed_poll_degrades (p : Health.Page)
    (prev : Health.HealthStatus) (Hheld : Health.health p = Some prev) :
  (exists h,
      Health.health (Health.pollHealth Health.Failed p) = Some h
      /\ Health.status h = Health.degraded
      /\ Health.available (Health.camera h)
         = Health.available (Health.camera prev)
      /\ Health.using_mock (Health.camera h)
         = Health.using_mock (Health.camera prev)
      /\ Health.width (Health.camera h) = Health.width (Health.camera prev)
      /\ Health.height (Health.camera h) = Health.height (Health.camera prev)
      /\ Health.fps (Health.camera h) = Health.fps (Health.camera prev)
      /\ Health.loaded (Health.model h) = Health.loaded (Health.model prev)
      /\ Health.path (Health.model h) = Health.path (Health.model prev)
      /\ Health.autoload (Health.model h)
         = Health.autoload (Health.model prev))
  /\ forall rs, Health.health (Health.polls rs p) <> None.
Proof.
  split.
  - exists (Health.degrade prev).
    cbn. rewrite Hheld. repeat split.
  - intros rs. apply health_stays. rewrite Hheld. discriminate.
Qed.

(** C9, after one successful poll: a failed poll leaves the status held,
    degraded, with the model still reported loaded. *)
Lemma C9_degraded_after_success :
  exists h,
    Health.health
      (Health.polls [Health.Succeeded mock_health 0; Health.Failed]
         Health.initial) = Some h
    /\ Health.status h = Health.degraded
    /\ Health.camera h = Health.camera mock_health
    /\ Health.model h = Health.model mock_health.
Proof.
  destruct (C9_failed_poll_degrades
              (Health.pollHealth (Health.Succeeded mock_health 0)
                 Health.initial)
              mock_health eq_refl) as [[h [E _]] _].
  exists h. cbn in E. injection E as E. subst h.
  repeat split.
Defined.

(** C10.  While no status is held, a failed poll leaves none held: nothing
    is made up.  So any number of failed polls from the start leaves the
    page without a status, and the next successful poll installs the
    status it fetched. *)
Theorem C10_failed_poll_before_success (p : Health.Page)
    (Hnone : Health.health p = None) :
  Health.health (Health.pollHealth Health.Failed p) = None
  /\ (forall n,
        Health.health (Health.polls (repeat Health.Failed n) p) = None)
  /\ forall n healthData now,
       Health.health
         (Health.pollHealth (Health.Succeeded healthData now)
            (Health.polls (repeat Health.Failed n) p))
       = Some healthData.
Proof.
  assert (F : forall q, Health.health q = None ->
                        Health.health (Health.pollHealth Health.Failed q)
                        = None).
  { intros q Hq. cbn. now rewrite Hq. }
  split; [now apply F|].
  split; [|reflexivity].
  intros n. revert p Hnone.
  induction n as [|n IH]; intros p Hnone; [exact Hnone|].
  cbn [repeat]. unfold Health.polls in *. cbn [fold_left].
  apply IH. now apply F.
Qed.

(** C10, from the page's initial state: three failed polls, then a
    success. *)
Lemma C10_three_failures_then_success :
  Health.health
    (Health.polls [Health.Failed; Health.Failed; Health.Failed]
       Health.initial) = None
  /\ Health.health
       (Health.polls
          [Health.Failed; Health.Failed; Health.Failed;
           Health.Succeeded mock_health 0]
          Health.initial) = Some mock_health.
Proof.
  destruct (C10_failed_poll_before_success Health.initial eq_refl)
    as [_ [A B]].
  split.
  - exact (A 3).
  - exact (B 3 mock_health 0%Z).
Defined.

(* ------------------------------------------------------------------ *)
(** ** Streaming scheduler *)


Lemma Render_eqb_eq (a b : Render) : Render_eqb a b = true -> a = b.
Proof.
  destruct a, b; unfold Render_eqb; cbn.
  rewrite !andb_true_iff.
  intros [[[[[H1 H2] H3] H4] H5] H6].
  apply Z.eqb_eq in H1. apply Nat.eqb_eq in H6.
  apply eqb_prop in H2, H3, H4, H5. now subst.
Qed.

Lemma Render_eqb_refl (a : Render) : Render_eqb a a = true.
Proof.
  unfold Render_eqb.
  now rewrite Z.eqb_refl, Nat.eqb_refl, !eqb_reflx.
Qed.

Lemma renderOnce_settled (st : State) : settled st -> renderOnce st = st.
Proof.
  unfold settled, renderOnce. intros E.
  now rewrite E, Render_eqb_refl.
Qed.

Lemma renderOnce_stopped (st : State) :
  isStreaming (view st) = false -> streamIntervalRef st = None ->
  timers st = [] -> Inv (renderOnce st).
Proof.
  intros S R T. unfold renderOnce.
  destruct (Render_eqb (view st) (lastDeps st)) eqn:E.
  - apply Render_eqb_eq in E.
    unfold Inv, settled, modelOK, timersOK.
    rewrite <- E, S. repeat split; auto. discriminate.
  - unfold restartEffect. rewrite S.
    unfold Inv, settled, modelOK, timersOK. cbn.
    rewrite S. repeat split; auto. discriminate.
Qed.

Lemma renderOnce_restart (st : State) :
  timersOK st -> modelOK st ->
  Inv (renderOnce st)
  \/ (isStreaming (view (renderOnce st)) = false
      /\ streamIntervalRef (renderOnce st) = None
      /\ timers (renderOnce st) = []).
Proof.
  intros T M. unfold renderOnce.
  destruct (Render_eqb (view st) (lastDeps st)) eqn:E.
  - left. apply Render_eqb_eq in E. now repeat split.
  - unfold restartEffect.
    destruct (isStreaming (view st)) eqn:S.
    + unfold timersOK in T. rewrite S in T. destruct T as [id [R T]].
      unfold startStream, stopStream.
      cbn [streamIntervalRef setIsStreaming set_view set_lastDeps].
      rewrite R.
      destruct (isModelLoaded (view st)) eqn:L; cbn [negb].
      * left. destruct st as [v d r t n c p s].
        destruct v as [f A B C D G]. cbn in *. subst A B.
        unfold Inv, settled, modelOK, timersOK; cbn.
        repeat split. exists n. split; [reflexivity|].
        rewrite T. cbn. now rewrite Nat.eqb_refl.
      * right. cbn. rewrite T. cbn. now rewrite Nat.eqb_refl.
    + left. unfold timersOK in T. rewrite S in T.
      unfold Inv, settled, modelOK, timersOK. cbn.
      rewrite S. repeat split; try tauto. discriminate.
Qed.

Lemma commit_Inv (st : State) : timersOK st -> modelOK st -> Inv (commit st).
Proof.
  intros T M. unfold commit.
  destruct (renderOnce_restart st T M) as [I | [S [R E]]].
  - rewrite (renderOnce_settled (renderOnce st)); [exact I | apply I].
  - now apply renderOnce_stopped.
Qed.

(** Rendering starts and settles no request, and leaves [isProcessing],
    the props and the telemetry refs alone. *)
Lemma renderOnce_keeps (st : State) :
  pending (renderOnce st) = pending st
  /\ inferenceCalls (renderOnce st) = inferenceCalls st
  /\ isProcessing (view (renderOnce st)) = isProcessing (view st)
  /\ isModelLoaded (view (renderOnce st)) = isModelLoaded (view st).
Proof.
  unfold renderOnce.
  destruct (Render_eqb (view st) (lastDeps st)); [tauto|].
  unfold restartEffect, startStream, stopStream.
  cbn [streamIntervalRef setIsStreaming set_view set_lastDeps].
  destruct (isStreaming (view st)); [|cbn; tauto].
  destruct (streamIntervalRef st), (isModelLoaded (view st)) eqn:L; cbn;
    rewrite ?L; repeat split; reflexivity.
Qed.

Lemma commit_keeps (st : State) :
  pending (commit st) = pending st
  /\ inferenceCalls (commit st) = inferenceCalls st
  /\ isProcessing (view (commit st)) = isProcessing (view st)
  /\ isModelLoaded (view (commit st)) = isModelLoaded (view st).
Proof.
  unfold commit.
  destruct (renderOnce_keeps (renderOnce st)) as [A [B [C D]]].
  destruct (renderOnce_keeps st) as [A' [B' [C' D']]].
  repeat split; congruence.
Qed.


Lemma initial_Inv (loaded : bool) : Inv (initial loaded).
Proof.
  unfold Inv, settled, modelOK, timersOK; cbn.
  repeat split; auto. discriminate.
Qed.

(** A tick calls the closure of the current render: on a settled state the
    only timer alive carries it. *)
Lemma find_timer (st : State) (id : nat) (t : Timer) :
  Inv st ->
  find (fun t => (timerId t =? id)%nat) (timers st) = Some t ->
  callback t = view st /\ isStreaming (view st) = true.
Proof.
  intros [S [_ T]] F. unfold timersOK in T.
  destruct (isStreaming (view st)).
  - destruct T as [id' [_ T]]. rewrite T in F. cbn in F.
    destruct (id' =? id)%nat; [|discriminate].
    injection F as <-. split; [exact S | reflexivity].
  - destruct T as [_ T]. rewrite T in F. discriminate.
Qed.

Lemma handle_timers (e : Event) (st st' : State) :
  Inv st -> handle e st = Some st' -> timersOK st' /\ modelOK st'.
Proof.
  intros I H. pose proof I as [S [M T]].
  assert (K : forall st1,
             lastDeps st1 = lastDeps st ->
             isStreaming (view st1) = isStreaming (view st) ->
             streamIntervalRef st1 = streamIntervalRef st ->
             timers st1 = timers st ->
             timersOK st1 /\ modelOK st1).
  { intros st1 E1 E2 E3 E4. unfold timersOK, modelOK in *.
    now rewrite E1, E2, E3, E4. }
  destruct e; cbn [handle] in H.
  - (* ClickStart *)
    destruct (isStreaming (view st)) eqn:A; [discriminate|].
    destruct (isModelLoaded (view st)) eqn:B; [|discriminate].
    injection H as <-.
    unfold timersOK in T. rewrite A in T. destruct T as [R T].
    unfold startStream. rewrite B. cbn [negb].
    unfold timersOK, modelOK; cbn. rewrite T.
    split; [|exact M].
    exists (nextTimerId st). split; [reflexivity|].
    unfold timerOf. now rewrite S.
  - (* ClickStop *)
    destruct (isStreaming (view st)) eqn:A; [|discriminate].
    injection H as <-.
    unfold timersOK in T. rewrite A in T. destruct T as [id [R T]].
    unfold stopStream. cbn [streamIntervalRef setIsStreaming set_view].
    rewrite R. unfold timersOK, modelOK; cbn. rewrite T; cbn.
    rewrite Nat.eqb_refl. repeat split. exact M.
  - (* ClickCapture *)
    destruct (isModelLoaded (view st) && negb (isProcessing (view st)));
      [|discriminate].
    injection H as <-. apply K; unfold processFrame;
      destruct (isModelLoaded (view st)); reflexivity.
  - injection H as <-. now apply K.
  - injection H as <-. now apply K.
  - (* Upload *)
    injection H as <-. apply K; unfold processFrame;
      destruct (isModelLoaded (view st)); reflexivity.
  - (* Tick *)
    destruct (find _ (timers st)) as [t|]; [|discriminate].
    injection H as <-. apply K; unfold tick, processFrame;
      destruct (isProcessing (callback t)), (isModelLoaded (callback t));
      reflexivity.
  - (* Settle *)
    destruct (existsb _ (pending st)); [|discriminate].
    injection H as <-. now apply K.
  - injection H as <-. now apply K.
Qed.

Lemma step_Inv (e : Event) (st st' : State) :
  Inv st -> step e st = Some st' -> Inv st'.
Proof.
  intros I H. unfold step in H.
  destruct (handle e st) as [st1|] eqn:E; [|discriminate].
  injection H as <-.
  destruct (handle_timers e st st1 I E) as [T M].
  now apply commit_Inv.
Qed.


Lemma run_Inv (es : list Event) (st st' : State) :
  Inv st -> run es st = Some st' -> Inv st'.
Proof.
  revert st; induction es as [|e es IH]; intros st I H; cbn in H.
  - now injection H as <-.
  - destruct (step e st) as [st1|] eqn:E; [|discriminate].
    exact (IH st1 (step_Inv e st st1 I E) H).
Qed.



(** A tick while no cycle is in flight starts exactly one. *)
Lemma tick_idle (st st' : State) (id : nat) :
  Inv st -> isProcessing (view st) = false ->
  step (Tick id) st = Some st' ->
  inferenceCalls st' = S (inferenceCalls st)
  /\ pending st'
     = pending st
       ++ [(inferenceCalls st,
            {| capture_from_camera := true; image_base64 := None;
               return_image := true |})].
Proof.
  intros I P H. unfold step in H. cbn [handle] in H.
  destruct (find _ (timers st)) as [t|] eqn:F; [|discriminate].
  destruct (find_timer st id t I F) as [C S].
  destruct I as [E [M _]]. unfold modelOK in M.
  rewrite E in M. specialize (M S).
  unfold tick, processFrame in H. rewrite C, P, M in H. cbn [negb] in H.
  injection H as <-.
  match goal with |- context [commit ?x] =>
    destruct (commit_keeps x) as [A [B _]]; rewrite A, B end.
  split; reflexivity.
Qed.


(** C7.  [startStream] called from a render in which the model is reported
    not loaded, on a stopped scheduler: the only effect is the toast
    ["Model Not Loaded"].  No timer is created, no inference call is made,
    and the scheduler is still stopped. *)
Theorem C7_start_rejected_model_not_loaded (r : Render) (st : State)
    (Hmodel : isModelLoaded r = false)
    (Hstopped : isStreaming (view st) = false) :
  let st' := startStream r st in
  isStreaming (view st') = false
  /\ view st' = view st
  /\ timers st' = timers st
  /\ streamIntervalRef st' = streamIntervalRef st
  /\ nextTimerId st' = nextTimerId st
  /\ inferenceCalls st' = inferenceCalls st
  /\ pending st' = pending st
  /\ Telemetry.toasts (session st')
     = Telemetry.toasts (session st) ++ ["Model Not Loaded"%string].
Proof.
  intros st'. unfold st', startStream.
  rewrite Hmodel. cbn [negb].
  unfold toast, set_session; cbn.
  rewrite Hstopped.
  repeat split.
Qed.

(** C7, on the initial component of a page whose model is not loaded. *)
Lemma C7_start_rejected_initially :
  isStreaming (view (startStream (initialRender false) (initial false)))
  = false
  /\ timers (startStream (initialRender false) (initial false)) = []
  /\ inferenceCalls (startStream (initialRender false) (initial false)) = 0
  /\ Telemetry.toasts
       (session (startStream (initialRender false) (initial false)))
     = ["Model Not Loaded"%string].
Proof.
  destruct (C7_start_rejected_model_not_loaded
              (initialRender false) (initial false) eq_refl eq_refl)
    as [A [_ [B [_ [_ [C [_ D]]]]]]].
  repeat split; assumption.
Defined.




(* ================================================================== *)
(** * Further properties *)

(* ------------------------------------------------------------------ *)
(** ** Telemetry: detection window, frame counter, failed requests *)

Lemma windowEntries_snoc (os : list Telemetry.Outcome) (o : Telemetry.Outcome) :
  windowEntries (os ++ [o]) = windowEntries os ++ windowEntries [o].
Proof.
  induction os as [|a os IH]; [reflexivity|].
  destruct a; simpl; rewrite IH; reflexivity.
Qed.

Lemma reportedEvents_snoc (os : list Telemetry.Outcome) (o : Telemetry.Outcome) :
  reportedEvents (os ++ [o]) = reportedEvents os ++ reportedEvents [o].
Proof.
  induction os as [|a os IH]; [reflexivity|].
  destruct a; simpl; rewrite IH; [|reflexivity].
  destruct (0 <? length (r_detections response)); reflexivity.
Qed.

Lemma Sorted_snoc_inv (l : list Z) (x : Z) :
  Sorted Z.le (l ++ [x]) -> Sorted Z.le l /\ (last l x <= x)%Z.
Proof.
  induction l as [|a l IH]; intros S.
  - split; [constructor | cbn; lia].
  - cbn [app] in S. inversion S as [|? ? S' Hd]; subst.
    destruct (IH S') as [S1 L].
    split.
    + constructor; [exact S1|].
      destruct l; [constructor|]. inversion Hd; subst. now constructor.
    + destruct l as [|b l]; [|exact L].
      cbn in *. inversion Hd; subst. assumption.
Qed.

Lemma filter_filter_imp {A : Type} (p q : A -> bool) (l : list A) :
  (forall a, q a = true -> p a = true) ->
  filter q (filter p l) = filter q l.
Proof.
  intros H. induction l as [|a l IH]; [reflexivity|].
  cbn. destruct (p a) eqn:P; cbn.
  - now rewrite IH.
  - destruct (q a) eqn:Q; [|exact IH].
    rewrite (H a Q) in P. discriminate.
Qed.

Lemma fold_left_counts (l : list (Z * Z)) (z : Z) :
  fold_left (fun sum entry => (sum + snd entry)%Z) l z
  = (z + fold_right Z.add 0 (map snd l))%Z.
Proof.
  revert z; induction l as [|a l IH]; intros z; cbn; [lia|].
  rewrite IH. lia.
Qed.

(** The rate the page holds is the sum over the window, and the frame
    counter it holds is the ref. *)
Lemma stats_counters_run (os : list Telemetry.Outcome) :
  let s := Telemetry.run os Telemetry.initial in
  detectionsPerMin (Telemetry.sessionStats s)
  = fold_right Z.add 0%Z (map snd (Telemetry.detectionHistoryRef s))
  /\ totalFrames (Telemetry.sessionStats s) = Telemetry.frameCountRef s.
Proof.
  induction os as [|o os IH] using rev_ind; [split; reflexivity|].
  cbv zeta in *. rewrite run_snoc.
  destruct o; [|exact IH].
  cbn. split; [|reflexivity].
  rewrite fold_left_counts. lia.
Qed.

Lemma last_any_default (l : list Z) (d d' : Z) :
  l <> [] -> last l d = last l d'.
Proof.
  induction l as [|a l IH]; [congruence|].
  intros _. destruct l as [|b l]; [reflexivity|].
  change (last (b :: l) d = last (b :: l) d'). apply IH. discriminate.
Qed.

Lemma detectionHistoryRef_run (os : list Telemetry.Outcome) :
  Sorted Z.le (map fst (windowEntries os)) ->
  Telemetry.detectionHistoryRef (Telemetry.run os Telemetry.initial)
  = filter (withinWindow (last (map fst (windowEntries os)) 0%Z))
           (windowEntries os).
Proof.
  induction os as [|o os IH] using rev_ind; intros S; [reflexivity|].
  rewrite run_snoc, windowEntries_snoc in *.
  destruct o; cbn [windowEntries] in *.
  - rewrite map_app in S. cbn [map fst] in S.
    destruct (Sorted_snoc_inv _ _ S) as [S1 L].
    rewrite map_app. cbn [map fst]. rewrite last_last.
    cbn [Telemetry.settle Telemetry.detectionHistoryRef].
    unfold Telemetry.recordDetections.
    rewrite !filter_app. f_equal.
    rewrite (IH S1).
    destruct (windowEntries os) as [|e es] eqn:E; [reflexivity|].
    apply filter_filter_imp.
    intros [t c]. unfold withinWindow. cbn [fst].
    intros H. apply Z.ltb_lt in H. apply Z.ltb_lt.
    rewrite (last_any_default (map fst (e :: es)) 0%Z now) by discriminate.
    lia.
  - rewrite app_nil_r in *. cbn. now apply IH.
Qed.

(** X1.  With a clock that does not run backwards, the detection history
    after any run is exactly the entries of the successful frames that are
    less than 60 s older than the latest one, and [detectionsPerMin] is the
    sum of their counts: older frames no longer count, whatever happened in
    between. *)
Theorem X1_detection_rate_is_window_sum (os : list Telemetry.Outcome)
    (Hclock : Sorted Z.le (map fst (windowEntries os))) :
  let s := Telemetry.run os Telemetry.initial in
  let latest := last (map fst (windowEntries os)) 0%Z in
  Telemetry.detectionHistoryRef s
  = filter (withinWindow latest) (windowEntries os)
  /\ detectionsPerMin (Telemetry.sessionStats s)
     = fold_right Z.add 0%Z
         (map snd (filter (withinWindow latest) (windowEntries os))).
Proof.
  intros s latest.
  pose proof (detectionHistoryRef_run os Hclock) as H.
  fold s in H. fold latest in H.
  split; [exact H|].
  destruct (stats_counters_run os) as [D _]. fold s in D.
  now rewrite D, H.
Qed.

(** X1, one frame with two detections, then a frame 61 s later with none:
    the rate is back to zero. *)
Lemma X1_rate_zero_after_61_seconds :
  detectionsPerMin
    (Telemetry.sessionStats
       (Telemetry.run
          [frame_at 1000 100 [box "car" (9 # 10); box "dog" (4 # 10)]]
          Telemetry.initial)) = 2%Z
  /\ detectionsPerMin
       (Telemetry.sessionStats
          (Telemetry.run
             [frame_at 1000 100 [box "car" (9 # 10); box "dog" (4 # 10)];
              frame_at 62000 100 []]
             Telemetry.initial)) = 0%Z.
Proof.
  split; [reflexivity|].
  assert (S : Sorted Z.le
                (map fst
                   (windowEntries
                      [frame_at 1000 100
                         [box "car" (9 # 10); box "dog" (4 # 10)];
                       frame_at 62000 100 []]))).
  { cbn. repeat constructor. lia. }
  destruct (X1_detection_rate_is_window_sum _ S) as [_ H].
  rewrite H. reflexivity.
Defined.

Lemma clearToasts_settle (o : Telemetry.Outcome) (s : Telemetry.Session) :
  clearToasts (Telemetry.settle o s)
  = if isResolved o then Telemetry.settle o (clearToasts s)
    else clearToasts s.
Proof. destruct o; reflexivity. Qed.

Lemma frameCountRef_run (os : list Telemetry.Outcome) :
  Telemetry.frameCountRef (Telemetry.run os Telemetry.initial)
  = length (filter isResolved os).
Proof.
  induction os as [|o os IH] using rev_ind; [reflexivity|].
  rewrite run_snoc, filter_app, length_app.
  destruct o; cbn; rewrite IH; lia.
Qed.

(** X2.  Failed requests are invisible to the telemetry: apart from the
    toasts, a run leaves the session exactly as the same run without its
    failed requests would.  [totalFrames] counts the successful frames, and
    each failure shows as one "Inference Failed" toast. *)
Theorem X2_failed_requests_leave_telemetry (os : list Telemetry.Outcome) :
  clearToasts (Telemetry.run os Telemetry.initial)
  = clearToasts (Telemetry.run (filter isResolved os) Telemetry.initial)
  /\ totalFrames (Telemetry.sessionStats (Telemetry.run os Telemetry.initial))
     = length (filter isResolved os)
  /\ Telemetry.toasts (Telemetry.run os Telemetry.initial)
     = repeat "Inference Failed"%string
         (length (filter (fun o => negb (isResolved o)) os)).
Proof.
  split; [|split].
  - induction os as [|o os IH] using rev_ind; [reflexivity|].
    rewrite run_snoc, filter_app, clearToasts_settle.
    destruct o; cbn [isResolved filter].
    + rewrite run_snoc, clearToasts_settle. cbn [isResolved].
      now rewrite IH.
    + now rewrite app_nil_r.
  - destruct (stats_counters_run os) as [_ T].
    cbv zeta in T. rewrite T. apply frameCountRef_run.
  - induction os as [|o os IH] using rev_ind; [reflexivity|].
    rewrite run_snoc, filter_app, length_app.
    destruct o; cbn.
    + rewrite IH. now rewrite Nat.add_0_r.
    + rewrite IH. rewrite Nat.add_1_r. cbn [repeat].
      now rewrite repeat_cons.
Qed.

Lemma in_firstn {A : Type} (n : nat) (l : list A) (x : A) :
  In x (firstn n l) -> In x l.
Proof.
  intros I. rewrite <- (firstn_skipn n l). apply in_or_app. now left.
Qed.

Lemma detectionEvents_run (os : list Telemetry.Outcome) :
  Telemetry.detectionEvents (Telemetry.run os Telemetry.initial)
  = Store.appendAll (reportedEvents os) [].
Proof.
  induction os as [|o os IH] using rev_ind; [reflexivity|].
  rewrite run_snoc, reportedEvents_snoc.
  unfold Store.appendAll in *. rewrite fold_left_app, <- IH.
  destruct o; [|reflexivity].
  cbn [Telemetry.settle Telemetry.detectionEvents reportedEvents].
  destruct (0 <? length (r_detections response)); reflexivity.
Qed.

Lemma reportedEvents_nonempty (os : list Telemetry.Outcome) :
  Forall (fun e => detections e <> []) (reportedEvents os).
Proof.
  induction os as [|o os IH]; [constructor|].
  destruct o; cbn; [|exact IH].
  destruct (r_detections response) as [|d ds] eqn:E; cbn; [exact IH|].
  constructor; [cbn; discriminate | exact IH].
Qed.

Lemma store_of_run (os : list Telemetry.Outcome) :
  Telemetry.detectionEvents (Telemetry.run os Telemetry.initial)
  = firstn 50 (rev (reportedEvents os))
  /\ Forall (fun e => detections e <> [])
            (Telemetry.detectionEvents (Telemetry.run os Telemetry.initial)).
Proof.
  assert (E : Telemetry.detectionEvents (Telemetry.run os Telemetry.initial)
              = firstn 50 (rev (reportedEvents os))).
  { rewrite detectionEvents_run.
    change (@nil DetectionEvent) with (firstn 50 (@nil DetectionEvent)).
    rewrite appendAll_firstn. now rewrite app_nil_r. }
  split; [exact E|].
  rewrite E. apply Forall_forall. intros e I.
  pose proof (reportedEvents_nonempty os) as F.
  rewrite Forall_forall in F. apply F.
  apply in_rev. exact (in_firstn _ _ _ I).
Qed.

(** X3.  The event store after any run holds the 50 latest events the
    successful frames reported, newest first, so never more than 50.  A
    frame reports an event only when its response has a detection, so no
    stored event is without boxes. *)
Theorem X3_store_holds_frames_with_detections (os : list Telemetry.Outcome) :
  Telemetry.detectionEvents (Telemetry.run os Telemetry.initial)
  = firstn 50 (rev (reportedEvents os))
  /\ length (Telemetry.detectionEvents (Telemetry.run os Telemetry.initial))
     <= 50
  /\ Forall (fun e => detections e <> [])
            (Telemetry.detectionEvents (Telemetry.run os Telemetry.initial)).
Proof.
  destruct (store_of_run os) as [E N].
  split; [exact E|].
  split; [|exact N].
  rewrite E. apply firstn_le_length.
Qed.

(* ------------------------------------------------------------------ *)
(** ** Detection list: default view, thresholds, label choices *)

Lemma filter_all {A : Type} (p : A -> bool) (l : list A) :
  (forall x, In x l -> p x = true) -> filter p l = l.
Proof.
  induction l as [|a l IH]; intros H; [reflexivity|].
  cbn. rewrite (H a (or_introl eq_refl)). f_equal.
  apply IH. intros x I. apply H. now right.
Qed.

Lemma filter_length {A : Type} (p : A -> bool) (l : list A) :
  length (filter p l) <= length l.
Proof.
  induction l as [|a l IH]; [constructor|].
  cbn. destruct (p a); cbn; lia.
Qed.

Lemma threshold_le (m1 m2 : Z) (c : Q) :
  (m1 <= m2)%Z ->
  Qle_bool (inject_Z m2 / 100) c = true ->
  Qle_bool (inject_Z m1 / 100) c = true.
Proof.
  intros H L. apply Qle_bool_iff in L. apply Qle_bool_iff.
  apply Qle_trans with (inject_Z m2 / 100)%Q; [|exact L].
  unfold Qle, Qdiv, Qmult, Qinv, inject_Z. cbn. lia.
Qed.

(** X4.  With the list's initial settings (label "all", threshold 0, or
    any threshold not above 0) the filter returns the whole store of a
    session, provided no reported box has a negative confidence.  And for
    any settings the list's [slice(0, 50)] cuts nothing off: the filtered
    result of a session's store never has more than 50 events. *)
Theorem X4_default_filter_shows_whole_store (os : list Telemetry.Outcome)
    (m : Z)
    (Hconf : Forall (fun e => Forall (fun d => (0 <= confidence d)%Q)
                                     (detections e))
                    (reportedEvents os))
    (Hm : (m <= 0)%Z) :
  let store :=
    Telemetry.detectionEvents (Telemetry.run os Telemetry.initial) in
  DetectionsList.filteredDetections store "all" m = store
  /\ forall filterLabel minConfidence,
       firstn 50
         (DetectionsList.filteredDetections store filterLabel minConfidence)
       = DetectionsList.filteredDetections store filterLabel minConfidence.
Proof.
  intros store.
  destruct (store_of_run os) as [E N].
  fold store in E, N.
  split.
  - unfold DetectionsList.filteredDetections. apply filter_all.
    intros e I. cbn [String.eqb orb andb].
    rewrite Forall_forall in N, Hconf.
    pose proof (N e I) as Ne.
    assert (R : In e (reportedEvents os)).
    { rewrite E in I. apply in_rev. exact (in_firstn _ _ _ I). }
    pose proof (Hconf e R) as C.
    destruct (detections e) as [|d ds]; [congruence|].
    inversion C as [|? ? C0 _]; subst.
    cbn [existsb]. apply orb_true_iff. left.
    apply (threshold_le m 0 _ Hm).
    apply Qle_bool_iff. unfold Qle in *. cbn in *. lia.
  - intros filterLabel minConfidence. apply firstn_all2.
    unfold DetectionsList.filteredDetections.
    etransitivity; [apply filter_length|].
    rewrite E. apply firstn_le_length.
Qed.

(** X4, a session of three frames, the middle one without detections: the
    default view lists the two events reported, newest first. *)
Lemma X4_default_view_of_three_frames :
  DetectionsList.filteredDetections
    (Telemetry.detectionEvents
       (Telemetry.run
          [frame_at 1000 100 [box "car" (9 # 10)];
           frame_at 1500 100 [];
           frame_at 2000 100 [box "dog" (4 # 10)]]
          Telemetry.initial))
    "all" 0
  = Telemetry.detectionEvents
      (Telemetry.run
         [frame_at 1000 100 [box "car" (9 # 10)];
          frame_at 1500 100 [];
          frame_at 2000 100 [box "dog" (4 # 10)]]
         Telemetry.initial)
  /\ map (fun e => map label (detections e))
         (Telemetry.detectionEvents
            (Telemetry.run
               [frame_at 1000 100 [box "car" (9 # 10)];
                frame_at 1500 100 [];
                frame_at 2000 100 [box "dog" (4 # 10)]]
               Telemetry.initial))
     = [["dog"%string]; ["car"%string]].
Proof.
  split; [|reflexivity].
  refine (proj1 (X4_default_filter_shows_whole_store _ 0 _ _)).
  - repeat constructor; cbn; unfold Qle; cbn; lia.
  - lia.
Defined.

(** X5.  Raising the confidence threshold only narrows the list: filtering
    the result for a lower threshold again at a higher one gives what
    filtering the store at the higher one gives.  Likewise a label filter
    only narrows what "all" shows at the same threshold. *)
Theorem X5_raising_threshold_narrows (store : list DetectionEvent)
    (filterLabel : string) (m1 m2 : Z) (Hle : (m1 <= m2)%Z) :
  DetectionsList.filteredDetections
    (DetectionsList.filteredDetections store filterLabel m1) filterLabel m2
  = DetectionsList.filteredDetections store filterLabel m2
  /\ incl (DetectionsList.filteredDetections store filterLabel m2)
          (DetectionsList.filteredDetections store filterLabel m1)
  /\ DetectionsList.filteredDetections
       (DetectionsList.filteredDetections store "all" m2) filterLabel m2
     = DetectionsList.filteredDetections store filterLabel m2.
Proof.
  assert (M : forall ds,
             existsb (fun d => Qle_bool (inject_Z m2 / 100) (confidence d)) ds
             = true ->
             existsb (fun d => Qle_bool (inject_Z m1 / 100) (confidence d)) ds
             = true).
  { intros ds. rewrite !existsb_exists. intros [d [I L]].
    exists d. split; [exact I|]. exact (threshold_le m1 m2 _ Hle L). }
  assert (N : DetectionsList.filteredDetections
                (DetectionsList.filteredDetections store filterLabel m1)
                filterLabel m2
              = DetectionsList.filteredDetections store filterLabel m2).
  { unfold DetectionsList.filteredDetections. apply filter_filter_imp.
    intros e H. apply andb_true_iff in H. destruct H as [H1 H2].
    apply andb_true_iff. split; [exact H1 | now apply M]. }
  split; [exact N|]. split.
  - rewrite <- N. unfold DetectionsList.filteredDetections at 1.
    apply incl_filter.
  - unfold DetectionsList.filteredDetections. apply filter_filter_imp.
    intros e H. apply andb_true_iff in H. destruct H as [_ H2].
    now rewrite H2.
Qed.

(** X5, on the store [car_dog_car]: at 30 percent both car events show, at
    50 percent only the first, which is also what narrowing the 30 percent
    list gives. *)
Lemma X5_car_events_at_30_then_50 :
  map id (DetectionsList.filteredDetections car_dog_car "car" 30)
  = ["1"%string; "3"%string]
  /\ DetectionsList.filteredDetections
       (DetectionsList.filteredDetections car_dog_car "car" 30) "car" 50
     = [event_of "1" (box "car" (9 # 10))].
Proof.
  split; [vm_compute; reflexivity|].
  rewrite (proj1 (X5_raising_threshold_narrows car_dog_car "car" 30 50
                    ltac:(lia))).
  vm_compute. reflexivity.
Defined.

(* Label choices *)

Lemma add_In (x y : string) (l : list string) :
  In y (Labels.add x l) <-> y = x \/ In y l.
Proof.
  unfold Labels.add.
  destruct (existsb (String.eqb x) l) eqn:E.
  - apply existsb_exists in E. destruct E as [z [I E]].
    apply String.eqb_eq in E. subst z.
    split; [now right | intros [->|H]; assumption].
  - rewrite in_app_iff. cbn. intuition.
Qed.

Lemma add_NoDup (x : string) (l : list string) :
  NoDup l -> NoDup (Labels.add x l).
Proof.
  intros N. unfold Labels.add.
  destruct (existsb (String.eqb x) l) eqn:E; [exact N|].
  apply NoDup_app; [exact N | repeat constructor; intros [] |].
  intros y I [->|[]].
  assert (X : existsb (String.eqb y) l = true).
  { apply existsb_exists. exists y. split; [exact I|].
    apply String.eqb_refl. }
  congruence.
Qed.

Lemma addBoxes_spec (ds : list BoundingBox) (acc : list string) :
  NoDup acc ->
  NoDup (fold_left (fun labels d => Labels.add (label d) labels) ds acc)
  /\ forall y,
       In y (fold_left (fun labels d => Labels.add (label d) labels) ds acc)
       <-> In y acc \/ exists d, In d ds /\ label d = y.
Proof.
  revert acc; induction ds as [|d ds IH]; intros acc N; cbn [fold_left].
  - split; [exact N|]. intros y. split; [now left|].
    intros [H|[d [[] _]]]. exact H.
  - destruct (IH _ (add_NoDup (label d) acc N)) as [N' I'].
    split; [exact N'|]. intros y. rewrite I', add_In. split.
    + intros [[->|H]|[d' [H E]]].
      * right. exists d. split; [now left | reflexivity].
      * now left.
      * right. exists d'. split; [now right | exact E].
    + intros [H|[d' [[<-|H] E]]].
      * left. now right.
      * left. left. now symmetry.
      * right. exists d'. split; assumption.
Qed.

Lemma collect_spec (store : list DetectionEvent) (acc : list string) :
  NoDup acc ->
  let result :=
    fold_left
      (fun labels event =>
         fold_left (fun labels d => Labels.add (label d) labels)
                   (detections event) labels)
      store acc in
  NoDup result
  /\ forall y,
       In y result
       <-> In y acc
           \/ exists event d,
                In event store /\ In d (detections event) /\ label d = y.
Proof.
  revert acc; induction store as [|e store IH]; intros acc N;
    cbn [fold_left].
  - split; [exact N|]. intros y. split; [now left|].
    intros [H|[e [d [[] _]]]]. exact H.
  - destruct (addBoxes_spec (detections e) acc N) as [N1 I1].
    destruct (IH _ N1) as [N2 I2]. cbv zeta in *.
    split; [exact N2|]. intros y. rewrite I2, I1. split.
    + intros [[H|[d [H E]]]|[e' [d [H [H' E]]]]].
      * now left.
      * right. exists e, d. repeat split; auto. now left.
      * right. exists e', d. repeat split; auto. now right.
    + intros [H|[e' [d [[<-|H] [H' E]]]]].
      * left. now left.
      * left. right. exists d. split; assumption.
      * right. exists e', d. repeat split; assumption.
Qed.

Lemma labels_insert_perm (x : string) (l : list string) :
  Permutation (Labels.insert x l) (x :: l).
Proof.
  induction l as [|y l IH]; cbn; auto.
  destruct (String.leb x y); auto.
  rewrite IH. apply perm_swap.
Qed.

Lemma labels_sort_perm (l : list string) : Permutation (Labels.sort l) l.
Proof.
  induction l as [|x l IH]; cbn; auto.
  rewrite labels_insert_perm. now constructor.
Qed.

Lemma labels_insert_sorted (x : string) (l : list string) :
  Sorted (fun a b => String.leb a b = true) l ->
  Sorted (fun a b => String.leb a b = true) (Labels.insert x l).
Proof.
  induction l as [|y l IH]; intros S; cbn.
  - repeat constructor.
  - destruct (String.leb x y) eqn:E.
    + constructor; auto.
    + assert (Y : String.leb y x = true).
      { destruct (String.leb_total x y); congruence. }
      inversion S as [|? ? S' Hd]; subst.
      constructor; auto.
      destruct l as [|z l]; cbn.
      * now constructor.
      * destruct (String.leb x z); constructor; auto.
        now inversion Hd.
Qed.

Lemma labels_sort_sorted (l : list string) :
  Sorted (fun a b => String.leb a b = true) (Labels.sort l).
Proof.
  induction l as [|x l IH]; cbn; [constructor|].
  now apply labels_insert_sorted.
Qed.

Lemma uniqueLabels_spec (store : list DetectionEvent) :
  Sorted (fun a b => String.leb a b = true) (Labels.uniqueLabels store)
  /\ NoDup (Labels.uniqueLabels store)
  /\ forall l,
       In l (Labels.uniqueLabels store)
       <-> exists event d,
             In event store /\ In d (detections event) /\ label d = l.
Proof.
  destruct (collect_spec store [] (NoDup_nil _)) as [N I].
  cbv zeta in N, I. fold (Labels.collect store) in N, I.
  pose proof (labels_sort_perm (Labels.collect store)) as P.
  split; [apply labels_sort_sorted|].
  split.
  - unfold Labels.uniqueLabels.
    apply (Permutation_NoDup (Permutation_sym P) N).
  - intros l. unfold Labels.uniqueLabels. split.
    + intros H. apply (Permutation_in _ P) in H.
      apply I in H. destruct H as [[]|H]. exact H.
    + intros H. apply (Permutation_in _ (Permutation_sym P)).
      apply I. now right.
Qed.

(** X6.  The label choices offered by the list are exactly the labels that
    occur on some box of some stored event, each listed once, in ascending
    order; an empty store offers none. *)
Theorem X6_uniqueLabels_sorted_distinct (store : list DetectionEvent) :
  Sorted (fun a b => String.leb a b = true) (Labels.uniqueLabels store)
  /\ NoDup (Labels.uniqueLabels store)
  /\ (forall l,
        In l (Labels.uniqueLabels store)
        <-> exists event d,
              In event store /\ In d (detections event) /\ label d = l)
  /\ Labels.uniqueLabels [] = [].
Proof.
  destruct (uniqueLabels_spec store) as [S [N I]].
  repeat split; try assumption; apply I.
Qed.

(** X7.  Every label the list offers selects something: for a store whose
    boxes have no negative confidence, filtering by an offered label at
    threshold 0 returns at least one event. *)
Theorem X7_offered_label_selects_an_event (store : list DetectionEvent)
    (l : string)
    (Hoffered : In l (Labels.uniqueLabels store))
    (Hconf : Forall (fun e => Forall (fun d => (0 <= confidence d)%Q)
                                     (detections e)) store) :
  DetectionsList.filteredDetections store l 0 <> [].
Proof.
  apply (proj2 (proj2 (uniqueLabels_spec store))) in Hoffered.
  destruct Hoffered as [e [d [Ie [Id El]]]].
  assert (K : In e (DetectionsList.filteredDetections store l 0)).
  { unfold DetectionsList.filteredDetections. apply filter_In.
    split; [exact Ie|].
    rewrite Forall_forall in Hconf. pose proof (Hconf e Ie) as C.
    rewrite Forall_forall in C. pose proof (C d Id) as C0.
    apply andb_true_iff. split.
    - apply orb_true_iff. right. apply existsb_exists.
      exists d. split; [exact Id|]. now apply String.eqb_eq.
    - apply existsb_exists. exists d. split; [exact Id|].
      apply Qle_bool_iff. unfold Qle in *. cbn in *. lia. }
  intros Z. rewrite Z in K. exact K.
Qed.

(** X7, on the store [car_dog_car]: "dog" is offered, and selects the
    second event. *)
Lemma X7_dog_is_offered_and_selects :
  Labels.uniqueLabels car_dog_car = ["car"%string; "dog"%string]
  /\ DetectionsList.filteredDetections car_dog_car "dog" 0 <> [].
Proof.
  split; [reflexivity|].
  apply X7_offered_label_selects_an_event.
  - cbn. tauto.
  - repeat constructor; cbn; unfold Qle; cbn; lia.
Defined.

(* ------------------------------------------------------------------ *)
(** ** Scheduler: one timer, stop, failures, model not loaded *)

Lemma commit_stopped (st : State) :
  isStreaming (view st) = false -> commit st = set_lastDeps (view st) st.
Proof.
  intros S. unfold commit.
  assert (R : renderOnce st = st \/ renderOnce st = set_lastDeps (view st) st).
  { unfold renderOnce.
    destruct (Render_eqb (view st) (lastDeps st)); [now left|].
    right. unfold restartEffect. now rewrite S. }
  assert (Q : renderOnce (set_lastDeps (view st) st)
              = set_lastDeps (view st) st).
  { apply renderOnce_settled. reflexivity. }
  destruct R as [R|R]; rewrite R.
  - unfold renderOnce.
    destruct (Render_eqb (view st) (lastDeps st)) eqn:E.
    + apply Render_eqb_eq in E. destruct st; cbn in *. now subst.
    + unfold restartEffect. now rewrite S.
  - exact Q.
Qed.

Lemma renderOnce_streaming (st : State) :
  isModelLoaded (view st) = true ->
  isStreaming (view (renderOnce st)) = isStreaming (view st).
Proof.
  intros L. unfold renderOnce.
  destruct (Render_eqb (view st) (lastDeps st)); [reflexivity|].
  unfold restartEffect, startStream, stopStream.
  cbn [streamIntervalRef setIsStreaming set_view set_lastDeps].
  destruct (isStreaming (view st)) eqn:S; [|cbn; now rewrite S].
  destruct (streamIntervalRef st); cbn; rewrite L; reflexivity.
Qed.

Lemma commit_streaming (st : State) :
  isModelLoaded (view st) = true ->
  isStreaming (view (commit st)) = isStreaming (view st).
Proof.
  intros L. unfold commit.
  rewrite renderOnce_streaming.
  - now apply renderOnce_streaming.
  - destruct (renderOnce_keeps st) as [_ [_ [_ M]]]. now rewrite M.
Qed.

(** X8.  In every state the component reaches, whatever the events, at
    most one interval timer is alive.  While streaming there is exactly
    one: the one [streamIntervalRef] names, running at [1000 / fps] for the
    current [fps], and calling the closure of the current render.  While
    stopped there is none. *)
Theorem X8_one_timer_at_current_rate (loaded : bool) (es : list Event)
    (st : State) (Hrun : run es (initial loaded) = Some st) :
  length (timers st) <= 1
  /\ (isStreaming (view st) = true ->
      exists id,
        streamIntervalRef st = Some id
        /\ timers st
           = [{| timerId := id;
                 interval := JS.div 1000 (inject_Z (fps (view st)));
                 callback := view st |}])
  /\ (isStreaming (view st) = false ->
      streamIntervalRef st = None /\ timers st = []).
Proof.
  destruct (run_Inv es _ st (initial_Inv loaded) Hrun) as [E [_ T]].
  unfold timersOK, settled in *. rewrite E in T.
  destruct (isStreaming (view st)).
  - destruct T as [id [R T]]. rewrite T.
    split; [cbn; lia|]. split; [|discriminate].
    intros _. exists id. split; [exact R | reflexivity].
  - destruct T as [R T]. rewrite T.
    split; [cbn; lia|]. split; [discriminate|].
    intros _. split; [exact R | reflexivity].
Qed.

(** X8, changing the rate while streaming: after selecting 4 frames per
    second the one timer alive runs every 250 ms. *)
Lemma X8_rate_change_restarts_timer :
  option_map (fun st => map interval (timers st))
    (run [ClickStart] (initial true))
  = Some [JS.Num (1000 / 2)]
  /\ exists st,
       run [ClickStart; SelectFps 4] (initial true) = Some st
       /\ length (timers st) <= 1
       /\ map interval (timers st) = [JS.Num (1000 / 4)].
Proof.
  split; [vm_compute; reflexivity|].
  destruct (run [ClickStart; SelectFps 4] (initial true)) as [st|] eqn:R;
    [|vm_compute in R; discriminate].
  exists st. split; [reflexivity|].
  destruct (X8_one_timer_at_current_rate true _ st R) as [L _].
  split; [exact L|].
  vm_compute in R. injection R as <-. reflexivity.
Defined.

(** X9.  [Stop] cancels the timer and nothing else: the scheduler is
    stopped, no timer is left to tick, but a request in flight stays in
    flight, and when it settles its outcome is recorded in the session as
    for any frame, without restarting anything. *)
Theorem X9_stop_keeps_request_in_flight (loaded : bool) (es : list Event)
    (st st' : State)
    (Hrun : run es (initial loaded) = Some st)
    (Hstop : step ClickStop st = Some st') :
  isStreaming (view st') = false
  /\ timers st' = [] /\ streamIntervalRef st' = None
  /\ pending st' = pending st
  /\ inferenceCalls st' = inferenceCalls st
  /\ session st' = session st
  /\ (forall id, step (Tick id) st' = None)
  /\ (forall call o st'',
        step (Settle call o) st' = Some st'' ->
        session st'' = Telemetry.settle o (session st')
        /\ isStreaming (view st'') = false
        /\ timers st'' = []
        /\ inferenceCalls st'' = inferenceCalls st').
Proof.
  destruct (run_Inv es _ st (initial_Inv loaded) Hrun) as [E [_ T]].
  unfold step in Hstop. cbn [handle] in Hstop.
  destruct (isStreaming (view st)) eqn:S; [|discriminate].
  injection Hstop as <-.
  unfold timersOK in T. rewrite S in T. destruct T as [id [R T]].
  assert (C : commit (stopStream st)
              = set_lastDeps (view (stopStream st)) (stopStream st)).
  { apply commit_stopped. unfold stopStream.
    cbn [streamIntervalRef setIsStreaming set_view]. now rewrite R. }
  assert (X : commit (stopStream st)
              = {| view := view (setIsStreaming false st);
                   lastDeps := view (setIsStreaming false st);
                   streamIntervalRef := None; timers := [];
                   nextTimerId := nextTimerId st;
                   inferenceCalls := inferenceCalls st;
                   pending := pending st; session := session st |}).
  { rewrite C. unfold stopStream.
    cbn [streamIntervalRef setIsStreaming set_view].
    rewrite R. unfold clearInterval, set_lastDeps. cbn.
    rewrite T. cbn. now rewrite Nat.eqb_refl. }
  rewrite X. clear X C.
  do 6 (split; [reflexivity|]).
  split; [reflexivity|].
  intros call o st'' H.
  unfold step in H. cbn [handle pending] in H.
  destruct (existsb _ (pending st)); [|discriminate].
  injection H as <-.
  rewrite commit_stopped by reflexivity.
  cbn. repeat split.
Qed.

(** X9, stopping while the first tick's request is in flight: the request
    stays pending, and when it resolves the frame is counted. *)
Lemma X9_stop_then_resolve :
  exists st st',
    run [ClickStart; Tick 1; ClickStop] (initial true) = Some st
    /\ map fst (pending st) = [0] /\ timers st = []
    /\ step (Settle 0 first_resolves) st = Some st'
    /\ totalFrames (Telemetry.sessionStats (session st')) = 1
    /\ isStreaming (view st') = false.
Proof.
  destruct (step ClickStop after_first_tick) as [st|] eqn:S;
    [|vm_compute in S; discriminate].
  destruct (step (Settle 0 first_resolves) st) as [st'|] eqn:S';
    [|vm_compute in S; injection S as <-; vm_compute in S'; discriminate].
  exists st, st'.
  assert (R : run [ClickStart; Tick 1] (initial true) = Some after_first_tick)
    by (vm_compute; reflexivity).
  destruct (X9_stop_keeps_request_in_flight true _ _ st R S)
    as [_ [T [_ [P [_ [Q [_ K]]]]]]].
  destruct (K 0 first_resolves st' S') as [K1 [K2 _]].
  split.
  { change (run [ClickStart; Tick 1; ClickStop] (initial true))
      with (match step ClickStop after_first_tick with
            | Some s => run [] s
            | None => None
            end).
    now rewrite S. }
  split; [rewrite P; reflexivity|].
  split; [exact T|].
  split; [exact S'|].
  split; [|exact K2].
  rewrite K1, Q. reflexivity.
Defined.

(** X10.  A settled request never halts the stream.  When a request
    settles while streaming, by a response or by a failure, the scheduler
    is still streaming with a live timer, and that timer's next tick makes
    a new inference call. *)
Theorem X10_stream_continues_after_settle (loaded : bool) (es : list Event)
    (st st' : State) (call : nat) (o : Telemetry.Outcome)
    (Hrun : run es (initial loaded) = Some st)
    (Hstreaming : isStreaming (view st) = true)
    (Hsettle : step (Settle call o) st = Some st') :
  isStreaming (view st') = true
  /\ exists id st'',
       streamIntervalRef st' = Some id
       /\ step (Tick id) st' = Some st''
       /\ inferenceCalls st'' = S (inferenceCalls st').
Proof.
  pose proof (run_Inv es _ st (initial_Inv loaded) Hrun) as I.
  pose proof (step_Inv _ _ _ I Hsettle) as I'.
  assert (M : isModelLoaded (view st) = true).
  { destruct I as [E [M _]]. unfold modelOK in M. rewrite E in M. auto. }
  assert (F : isStreaming (view st') = true
              /\ isProcessing (view st') = false).
  { unfold step in Hsettle. cbn [handle] in Hsettle.
    destruct (existsb _ (pending st)); [|discriminate].
    injection Hsettle as <-.
    split.
    - rewrite commit_streaming; [exact Hstreaming | exact M].
    - destruct (commit_keeps (processFrame_settled call o st))
        as [_ [_ [P _]]].
      rewrite P. reflexivity. }
  destruct F as [S P]. split; [exact S|].
  destruct I' as [E' [M' T']]. unfold timersOK in T'. rewrite S in T'.
  destruct T' as [id [R T]].
  destruct (step (Tick id) st') as [st''|] eqn:K.
  - exists id, st''. split; [exact R|]. split; [exact K|].
    assert (I'' : Inv st') by (repeat split; auto;
                               unfold timersOK; rewrite S; eauto).
    exact (proj1 (tick_idle st' st'' id I'' P K)).
  - unfold step in K. cbn [handle] in K. rewrite T in K.
    cbn in K. rewrite Nat.eqb_refl in K. discriminate.
Qed.

(** X10, the first request fails: the stream goes on and the next tick
    makes the second call. *)
Lemma X10_failed_request_then_tick :
  exists st st',
    run [ClickStart; Tick 1; Settle 0 (Telemetry.Rejected "timeout")]
        (initial true) = Some st
    /\ isStreaming (view st) = true
    /\ Telemetry.toasts (session st) = ["Inference Failed"%string]
    /\ step (Tick 3) st = Some st'
    /\ inferenceCalls st' = 2.
Proof.
  destruct (step (Settle 0 (Telemetry.Rejected "timeout")) after_first_tick)
    as [st|] eqn:S; [|vm_compute in S; discriminate].
  assert (R : run [ClickStart; Tick 1] (initial true) = Some after_first_tick)
    by (vm_compute; reflexivity).
  destruct (X10_stream_continues_after_settle true _ _ st 0
              (Telemetry.Rejected "timeout") R eq_refl S)
    as [A [id [st' [B [C D]]]]].
  exists st, st'.
  split.
  { change (run [ClickStart; Tick 1; Settle 0 (Telemetry.Rejected "timeout")]
                (initial true))
      with (match step (Settle 0 (Telemetry.Rejected "timeout"))
                       after_first_tick with
            | Some s => run [] s
            | None => None
            end).
    now rewrite S. }
  split; [exact A|].
  vm_compute in S. injection S as <-.
  split; [reflexivity|].
  cbn in B. injection B as <-.
  split; [exact C|].
  rewrite D. reflexivity.
Defined.



(** X12.  When the model is reported not loaded while the scheduler is
    streaming, the restart effect stops the stream: the timer is cleared,
    the restart is refused with one "Model Not Loaded" toast, and the
    scheduler is stopped.  Requests in flight are left alone. *)
Theorem X12_model_unloaded_stops_stream (loaded : bool) (es : list Event)
    (st st' : State)
    (Hrun : run es (initial loaded) = Some st)
    (Hstreaming : isStreaming (view st) = true)
    (Hprops : step (Props false) st = Some st') :
  isStreaming (view st') = false
  /\ isModelLoaded (view st') = false
  /\ timers st' = [] /\ streamIntervalRef st' = None
  /\ pending st' = pending st
  /\ inferenceCalls st' = inferenceCalls st
  /\ Telemetry.toasts (session st')
     = Telemetry.toasts (session st) ++ ["Model Not Loaded"%string].
Proof.
  destruct (run_Inv es _ st (initial_Inv loaded) Hrun) as [E [_ T]].
  unfold timersOK in T. rewrite Hstreaming in T. destruct T as [id [R T]].
  unfold step in Hprops. cbn [handle] in Hprops. injection Hprops as <-.
  destruct st as [v d r t n c p s]. unfold settled in E.
  cbn in E, R, T, Hstreaming. subst d r t.
  destruct v as [f A B C D G]. cbn in Hstreaming. subst A.
  match goal with |- context [commit ?x] =>
    remember (commit x) as fin eqn:F end.
  unfold commit, setProps, set_view in F. cbn [view] in F.
  unfold renderOnce at 2 in F. cbn [view lastDeps] in F.
  destruct (Render_eqb _ _) eqn:Q1 in F.
  { apply Render_eqb_eq in Q1. injection Q1 as _ Q1. lia. }
  unfold restartEffect, startStream, stopStream in F. cbn in F.
  unfold renderOnce, toast, clearInterval, setIsStreaming, set_lastDeps,
    set_session, set_view in F.
  cbn in F. rewrite Nat.eqb_refl in F. cbn in F.
  destruct (Render_eqb _ _) eqn:Q2 in F.
  { apply Render_eqb_eq in Q2. discriminate Q2. }
  subst fin. cbn. repeat split.
Qed.

(** X12, streaming, then the parent reports the model not loaded. *)
Lemma X12_unload_while_streaming :
  exists st,
    run [ClickStart; Props false] (initial true) = Some st
    /\ isStreaming (view st) = false
    /\ timers st = []
    /\ Telemetry.toasts (session st) = ["Model Not Loaded"%string].
Proof.
  destruct (run [ClickStart] (initial true)) as [st0|] eqn:R0;
    [|vm_compute in R0; discriminate].
  destruct (step (Props false) st0) as [st|] eqn:S;
    [|vm_compute in R0; injection R0 as <-; vm_compute in S; discriminate].
  assert (H0 : isStreaming (view st0) = true)
    by (vm_compute in R0; injection R0 as <-; reflexivity).
  destruct (X12_model_unloaded_stops_stream true _ st0 st R0 H0 S)
    as [A [_ [B [_ [_ [_ C]]]]]].
  exists st. split.
  { change (run [ClickStart; Props false] (initial true))
      with (match run [ClickStart] (initial true) with
            | Some s => match step (Props false) s with
                        | Some s' => run [] s'
                        | None => None
                        end
            | None => None
            end).
    rewrite R0, S. reflexivity. }
  split; [exact A|]. split; [exact B|].
  rewrite C. vm_compute in R0. injection R0 as <-. reflexivity.
Defined.

(* ------------------------------------------------------------------ *)
(** ** Overlay and frame painting *)

Lemma div_by_positive (a : Q) (b : Z) :
  (0 < b)%Z -> JS.div a (inject_Z b) = JS.Num (a / inject_Z b).
Proof.
  intros H. unfold JS.div.
  assert (Z : JS.Qzero_b (inject_Z b) = false).
  { unfold JS.Qzero_b, Qeq_bool, inject_Z; cbn.
    apply Z.eqb_neq. lia. }
  now rewrite Z.
Qed.

(** X13.  For an image of positive size, every detection is drawn at its
    coordinates times [canvas.width / imageWidth] horizontally and
    [canvas.height / imageHeight] vertically: a stroked rectangle at
    [(x_min, y_min)] scaled, of the box's scaled width and height. *)
Theorem X13_boxes_scaled_to_canvas
    (measureText : string -> string -> JS.number)
    (toFixed0 : JS.number -> string) (canvas : Overlay.Canvas)
    (dets : list BoundingBox) (imageWidth imageHeight : Z)
    (Hctx : Overlay.context2d canvas = true)
    (Hw : (0 < imageWidth)%Z) (Hh : (0 < imageHeight)%Z) :
  let sx := (inject_Z (Overlay.width canvas) / inject_Z imageWidth)%Q in
  let sy := (inject_Z (Overlay.height canvas) / inject_Z imageHeight)%Q in
  forall d,
    In d dets ->
    In (Overlay.StrokeRect
          (JS.Num (x_min d * sx)) (JS.Num (y_min d * sy))
          (JS.Num ((x_max d - x_min d) * sx))
          (JS.Num ((y_max d - y_min d) * sy)) "#3b82f6" 2)
       (Overlay.surface
          (Overlay.drawBoundingBoxes measureText toFixed0 true canvas dets
             imageWidth imageHeight)).
Proof.
  intros sx sy d I.
  unfold Overlay.drawBoundingBoxes. rewrite Hctx. cbn [negb orb].
  rewrite drawAll_surface. cbn [Overlay.clearRect_all Overlay.set_surface
                                Overlay.surface Overlay.width Overlay.height
                                app].
  rewrite (div_by_positive _ _ Hw), (div_by_positive _ _ Hh).
  apply in_flat_map. exists d. split; [exact I|].
  unfold Overlay.paintsOf. cbn [JS.mul]. now left.
Qed.

(** X13, a box [{x_min: 0, y_min: 0, x_max: 100, y_max: 50}] of a 200 x 100
    image on a 400 x 200 canvas is drawn at (0, 0) with size 200 x 100. *)
Lemma X13_box_on_400_by_200 :
  exists x y w h,
    In (Overlay.StrokeRect (JS.Num x) (JS.Num y) (JS.Num w) (JS.Num h)
          "#3b82f6" 2)
       (Overlay.surface
          (Overlay.drawBoundingBoxes
             (fun _ _ => JS.Num 50) (fun _ => "90"%string) true used_canvas
             [{| label := "car"; confidence := 9 # 10;
                 x_min := 0; y_min := 0; x_max := 100; y_max := 50 |}]
             200 100))
    /\ (x == 0 /\ y == 0 /\ w == 200 /\ h == 100)%Q.
Proof.
  do 4 eexists. split.
  - apply (X13_boxes_scaled_to_canvas
             (fun _ _ => JS.Num 50) (fun _ => "90"%string) used_canvas
             [{| label := "car"; confidence := 9 # 10;
                 x_min := 0; y_min := 0; x_max := 100; y_max := 50 |}]
             200 100 eq_refl eq_refl eq_refl).
    now left.
  - cbn. repeat split; reflexivity.
Defined.

Lemma inject_Z_pos (z : Z) : (0 < z)%Z -> (0 < inject_Z z)%Q.
Proof. intros H. unfold Qlt, inject_Z; cbn. lia. Qed.



Lemma paints_no_image (measureText : string -> string -> JS.number)
    (toFixed0 : JS.number -> string) (sx sy : JS.number)
    (dets : list BoundingBox) (w h : JS.number) :
  ~ In (Overlay.DrawImage w h)
       (flat_map (Overlay.paintsOf measureText toFixed0 sx sy) dets).
Proof.
  intros I. apply in_flat_map in I. destruct I as [d [_ I]].
  unfold Overlay.paintsOf in I. cbn in I.
  destruct I as [I|[I|[I|[]]]]; discriminate.
Qed.

(** X15.  Painting a frame replaces whatever the canvas showed: setting
    the canvas size clears it, then the image is drawn, then the overlay.
    With overlay display off the surface ends up holding the frame image
    alone.  With overlay display on, the overlay's clear of the whole
    canvas comes after the image is drawn, so the surface ends up holding
    the boxes and labels only and the image is gone.  In both cases nothing
    painted before the frame is left. *)
Theorem X15_frame_paint_replaces_surface
    (measureText : string -> string -> JS.number)
    (toFixed0 : JS.number -> string) (canvas : Overlay.Canvas)
    (imgWidth imgHeight : Z) (dets : list BoundingBox)
    (Hctx : Overlay.context2d canvas = true) :
  Overlay.surface
    (Frame.onload measureText toFixed0 false canvas imgWidth imgHeight dets)
  = [Overlay.DrawImage (fst (Frame.fitCanvas imgWidth imgHeight))
                       (snd (Frame.fitCanvas imgWidth imgHeight))]
  /\ (forall w h,
        ~ In (Overlay.DrawImage w h)
             (Overlay.surface
                (Frame.onload measureText toFixed0 true canvas
                   imgWidth imgHeight dets)))
  /\ (forall showOverlay prior,
        Overlay.surface
          (Frame.onload measureText toFixed0 showOverlay
             (Overlay.set_surface prior canvas) imgWidth imgHeight dets)
        = Overlay.surface
            (Frame.onload measureText toFixed0 showOverlay canvas
               imgWidth imgHeight dets)).
Proof.
  unfold Frame.onload.
  destruct (Frame.fitCanvas imgWidth imgHeight) as [cw ch].
  split; [|split].
  - unfold Overlay.drawBoundingBoxes.
    cbn [Frame.drawImage Frame.setHeight Frame.setWidth Frame.resetTo
         Overlay.paint Overlay.set_surface Overlay.context2d].
    rewrite Hctx. reflexivity.
  - intros w h. unfold Overlay.drawBoundingBoxes.
    cbn [Frame.drawImage Frame.setHeight Frame.setWidth Frame.resetTo
         Overlay.paint Overlay.set_surface Overlay.context2d].
    rewrite Hctx. cbn [negb orb]. rewrite drawAll_surface.
    cbn [Overlay.clearRect_all Overlay.set_surface Overlay.surface app].
    apply paints_no_image.
  - intros showOverlay prior. unfold Overlay.drawBoundingBoxes.
    cbn [Frame.drawImage Frame.setHeight Frame.setWidth Frame.resetTo
         Overlay.paint Overlay.set_surface Overlay.context2d].
    reflexivity.
Qed.

(** X15, on a canvas that still shows the box of an earlier frame: after
    a frame painted with overlay off only the image is there; after a frame
    painted with overlay on only that frame's three paints are. *)
Lemma X15_stale_box_is_gone :
  (exists w h,
      Overlay.surface
        (Frame.onload (fun _ _ => JS.Num 50) (fun _ => "90"%string) false
           used_canvas 200 100 [box "car" (9 # 10)])
      = [Overlay.DrawImage w h])
  /\ length
       (Overlay.surface
          (Frame.onload (fun _ _ => JS.Num 50) (fun _ => "90"%string) true
             used_canvas 200 100 [box "car" (9 # 10)])) = 3
  /\ ~ In stale_box
          (Overlay.surface
             (Frame.onload (fun _ _ => JS.Num 50) (fun _ => "90"%string) true
                used_canvas 200 100 [box "car" (9 # 10)])).
Proof.
  destruct (X15_frame_paint_replaces_surface
              (fun _ _ => JS.Num 50) (fun _ => "90"%string) used_canvas
              200 100 [box "car" (9 # 10)] eq_refl) as [A _].
  split; [do 2 eexists; exact A|].
  split; [reflexivity|].
  cbn. intros [H|[H|[H|[]]]]; discriminate.
Defined.

(* ------------------------------------------------------------------ *)
(** ** Health checks *)

Lemma degrade_twice (h : Health.HealthStatus) :
  Health.degrade (Health.degrade h) = Health.degrade h.
Proof. reflexivity. Qed.





(* ------------------------------------------------------------------ *)
(** ** Uploaded images *)

Lemma split_no_comma (s : string) :
  hasComma s = false -> Upload.split s = [s].
Proof.
  induction s as [|c s IH]; intros H; [reflexivity|].
  cbn in *. apply orb_false_iff in H. destruct H as [H1 H2].
  now rewrite H1, (IH H2).
Qed.

Lemma split_prefix (prefix rest : string) :
  hasComma prefix = false ->
  Upload.split (prefix ++ String "," rest) = prefix :: Upload.split rest.
Proof.
  induction prefix as [|c s IH]; intros H; [reflexivity|].
  cbn in *. apply orb_false_iff in H. destruct H as [H1 H2].
  now rewrite H1, (IH H2).
Qed.

(** X17.  The data handed to the inference call is what follows the first
    comma of the file's data URL: for a URL [prefix,data] in which neither
    part has a comma it is [data] exactly.  A result without any comma
    gives no data ([undefined]). *)
Theorem X17_upload_data_after_comma (prefix data : string)
    (Hprefix : hasComma prefix = false) (Hdata : hasComma data = false) :
  Upload.base64Data (prefix ++ String "," data) = Some data
  /\ Upload.base64Data prefix = None.
Proof.
  unfold Upload.base64Data. split.
  - rewrite (split_prefix prefix data Hprefix).
    now rewrite (split_no_comma data Hdata).
  - now rewrite (split_no_comma prefix Hprefix).
Qed.

(** X17, a PNG data URL. *)
Lemma X17_png_data_url :
  Upload.base64Data "data:image/png;base64,aGVsbG8=" = Some "aGVsbG8="%string.
Proof.
  exact (proj1 (X17_upload_data_after_comma "data:image/png;base64"
                  "aGVsbG8=" eq_refl eq_refl)).
Defined.

(* ------------------------------------------------------------------ *)
(** ** The scheduler feeds the telemetry *)

Lemma clearToasts_toast (title : string) (st : State) :
  clearToasts (session (toast title st)) = clearToasts (session st).
Proof. reflexivity. Qed.

Lemma clearToasts_renderOnce (st : State) :
  clearToasts (session (renderOnce st)) = clearToasts (session st).
Proof.
  unfold renderOnce.
  destruct (Render_eqb (view st) (lastDeps st)); [reflexivity|].
  unfold restartEffect, startStream, stopStream.
  cbn [streamIntervalRef setIsStreaming set_view set_lastDeps].
  destruct (isStreaming (view st)); [|reflexivity].
  destruct (streamIntervalRef st), (isModelLoaded (view st)); reflexivity.
Qed.

Lemma clearToasts_commit (st : State) :
  clearToasts (session (commit st)) = clearToasts (session st).
Proof. unfold commit. now rewrite !clearToasts_renderOnce. Qed.

Lemma clearToasts_settle_congr (o : Telemetry.Outcome)
    (s s' : Telemetry.Session) :
  clearToasts s = clearToasts s' ->
  clearToasts (Telemetry.settle o s) = clearToasts (Telemetry.settle o s').
Proof. intros H. rewrite !clearToasts_settle. now rewrite H. Qed.

Lemma clearToasts_run_congr (os : list Telemetry.Outcome)
    (s s' : Telemetry.Session) :
  clearToasts s = clearToasts s' ->
  clearToasts (Telemetry.run os s) = clearToasts (Telemetry.run os s').
Proof.
  revert s s'; induction os as [|o os IH]; intros s s' H; [exact H|].
  unfold Telemetry.run in *. cbn [fold_left].
  apply IH. now apply clearToasts_settle_congr.
Qed.

Lemma clearToasts_handle (e : Event) (st st' : State) :
  handle e st = Some st' ->
  clearToasts (session st')
  = clearToasts (Telemetry.run (settledOutcomes [e]) (session st)).
Proof.
  intros H. destruct e; cbn [handle] in H; cbn [settledOutcomes].
  - destruct (negb (isStreaming (view st)) && isModelLoaded (view st));
      [|discriminate].
    injection H as <-. unfold startStream.
    destruct (isModelLoaded (view st)); reflexivity.
  - destruct (isStreaming (view st)); [|discriminate].
    injection H as <-. unfold stopStream.
    cbn [streamIntervalRef setIsStreaming set_view].
    destruct (streamIntervalRef st); reflexivity.
  - destruct (isModelLoaded (view st) && negb (isProcessing (view st)));
      [|discriminate].
    injection H as <-. unfold processFrame.
    destruct (isModelLoaded (view st)); reflexivity.
  - injection H as <-. reflexivity.
  - injection H as <-. reflexivity.
  - injection H as <-. unfold processFrame.
    destruct (isModelLoaded (view st)); reflexivity.
  - destruct (find _ (timers st)) as [t|]; [|discriminate].
    injection H as <-. unfold tick, processFrame.
    destruct (isProcessing (callback t)), (isModelLoaded (callback t));
      reflexivity.
  - destruct (existsb _ (pending st)); [|discriminate].
    injection H as <-. reflexivity.
  - injection H as <-. reflexivity.
Qed.

Lemma settledOutcomes_cons (e : Event) (es : list Event) :
  settledOutcomes (e :: es) = settledOutcomes [e] ++ settledOutcomes es.
Proof. destruct e; reflexivity. Qed.

Lemma session_of_run (es : list Event) (st st' : State) :
  run es st = Some st' ->
  clearToasts (session st')
  = clearToasts (Telemetry.run (settledOutcomes es) (session st)).
Proof.
  revert st; induction es as [|e es IH]; intros st H; cbn [run] in H.
  - now injection H as <-.
  - unfold step in H.
    destruct (handle e st) as [st1|] eqn:E; [|discriminate].
    rewrite (IH _ H).
    pose proof (clearToasts_handle e st st1 E) as K.
    rewrite <- clearToasts_commit in K.
    rewrite (settledOutcomes_cons e es).
    unfold Telemetry.run at 2. rewrite fold_left_app.
    fold (Telemetry.run (settledOutcomes [e]) (session st)).
    fold (Telemetry.run (settledOutcomes es)
            (Telemetry.run (settledOutcomes [e]) (session st))).
    now apply clearToasts_run_congr.
Qed.

(** X18.  The telemetry the component accumulates is that of its settled
    requests and of nothing else: after any run of events, the refs and
    the statistics, events and frame time held by the page are, toasts
    aside, what [processFrame]'s settling produces from the outcomes of
    the requests that settled, in the order they settled.  Clicks, ticks,
    rate changes, uploads as such and re-renders never touch them. *)
Theorem X18_session_is_settled_outcomes (loaded : bool) (es : list Event)
    (st : State) (Hrun : run es (initial loaded) = Some st) :
  clearToasts (session st)
  = clearToasts (Telemetry.run (settledOutcomes es) Telemetry.initial)
  /\ totalFrames (Telemetry.sessionStats (session st))
     = length (filter isResolved (settledOutcomes es))
  /\ length (Telemetry.latencyHistoryRef (session st)) <= 60.
Proof.
  pose proof (session_of_run es _ st Hrun) as H.
  change (session (initial loaded)) with Telemetry.initial in H.
  split; [exact H|].
  assert (T : Telemetry.sessionStats (session st)
              = Telemetry.sessionStats
                  (Telemetry.run (settledOutcomes es) Telemetry.initial)
              /\ Telemetry.latencyHistoryRef (session st)
                 = Telemetry.latencyHistoryRef
                     (Telemetry.run (settledOutcomes es) Telemetry.initial)).
  { split.
    - change (Telemetry.sessionStats (clearToasts (session st))
              = Telemetry.sessionStats
                  (clearToasts
                     (Telemetry.run (settledOutcomes es) Telemetry.initial))).
      now rewrite H.
    - change (Telemetry.latencyHistoryRef (clearToasts (session st))
              = Telemetry.latencyHistoryRef
                  (clearToasts
                     (Telemetry.run (settledOutcomes es) Telemetry.initial))).
      now rewrite H. }
  destruct T as [T1 T2]. rewrite T1, T2. split.
  - destruct (stats_counters_run (settledOutcomes es)) as [_ F].
    cbv zeta in F. rewrite F. apply frameCountRef_run.
  - rewrite latencyHistoryRef_run, lastn_length. lia.
Qed.

(** X18, a stream whose first request resolves and whose second fails:
    one frame is counted. *)
Lemma X18_one_frame_counted :
  exists st,
    run [ClickStart; Tick 1; Settle 0 first_resolves; Tick 3;
         Settle 1 (Telemetry.Rejected "timeout")] (initial true) = Some st
    /\ totalFrames (Telemetry.sessionStats (session st)) = 1
    /\ Telemetry.latencyHistoryRef (session st) = [130%Z].
Proof.
  destruct (run [ClickStart; Tick 1; Settle 0 first_resolves; Tick 3;
                 Settle 1 (Telemetry.Rejected "timeout")] (initial true))
    as [st|] eqn:R; [|vm_compute in R; discriminate].
  destruct (X18_session_is_settled_outcomes true _ st R) as [_ [T _]].
  exists st. split; [reflexivity|]. split; [exact T|].
  vm_compute in R. injection R as <-. reflexivity.
Defined.

(* ------------------------------------------------------------------ *)
(** ** Bounds on the reported latencies *)

Lemma sum_bounds (l : list Z) (lo hi : Z) :
  Forall (fun x => (lo <= x <= hi)%Z) l ->
  (lo * Z.of_nat (length l) <= fold_right Z.add 0 l
   <= hi * Z.of_nat (length l))%Z.
Proof.
  induction 1 as [|x l H F IH]; [cbn; lia|].
  cbn [length fold_right]. rewrite Nat2Z.inj_succ. lia.
Qed.

Lemma mean_bounds (l : list Z) (lo hi : Z) :
  l <> [] -> Forall (fun x => (lo <= x <= hi)%Z) l ->
  (inject_Z lo <= Telemetry.mean l /\ Telemetry.mean l <= inject_Z hi)%Q.
Proof.
  intros N F. pose proof (sum_bounds l lo hi F) as [A B].
  assert (P : (0 < Z.of_nat (length l))%Z).
  { destruct l; [congruence | cbn [length]; lia]. }
  unfold Telemetry.mean.
  set (n := Z.of_nat (length l)) in *.
  set (s := fold_right Z.add 0%Z l) in *.
  assert (Pq : (0 < inject_Z n)%Q) by now apply inject_Z_pos.
  split.
  - apply Qle_shift_div_l; [exact Pq|].
    rewrite <- inject_Z_mult. rewrite <- Zle_Qle. exact A.
  - apply Qle_shift_div_r; [exact Pq|].
    rewrite <- inject_Z_mult. rewrite <- Zle_Qle. exact B.
Qed.

(** X19.  Once a sample is recorded, the reported [avgLatency] lies
    between the smallest and the largest sample of the window, and the
    reported [p95Latency] is itself one of the samples of the window. *)
Theorem X19_reported_latencies_within_window (os : list Telemetry.Outcome)
    (lo hi : Z)
    (Hne : Telemetry.latencyHistoryRef (Telemetry.run os Telemetry.initial)
           <> [])
    (Hbounds : Forall (fun x => (lo <= x <= hi)%Z)
                 (Telemetry.latencyHistoryRef
                    (Telemetry.run os Telemetry.initial))) :
  let s := Telemetry.run os Telemetry.initial in
  (exists q,
      avgLatency (Telemetry.sessionStats s) = JS.Num q
      /\ (inject_Z lo <= q /\ q <= inject_Z hi)%Q)
  /\ exists v,
       p95Latency (Telemetry.sessionStats s) = JS.Num (inject_Z v)
       /\ In v (Telemetry.latencyHistoryRef s)
       /\ (lo <= v <= hi)%Z.
Proof.
  intros s. fold s in Hne, Hbounds.
  destruct (statsFollow_run os) as [_ H]. fold s in H.
  assert (L : length (Telemetry.latencyHistoryRef s) <= 60).
  { unfold s. rewrite latencyHistoryRef_run, lastn_length. lia. }
  destruct (Telemetry.latencyHistoryRef s) as [|a r] eqn:E; [congruence|].
  destruct H as [Ha Hp]. split.
  - exists (Telemetry.mean (a :: r)). split.
    + rewrite Ha. now apply calcAvgLatency_mean.
    + now apply mean_bounds.
  - exists (nth (length (a :: r) * 95 / 100) (JS.sort_asc (a :: r)) 0%Z).
    split; [rewrite Hp; now apply calcP95Latency_nth|].
    assert (I : In (nth (length (a :: r) * 95 / 100)
                        (JS.sort_asc (a :: r)) 0%Z) (a :: r)).
    { apply (Permutation_in _ (sort_asc_perm (a :: r))).
      apply nth_In. rewrite sort_asc_length.
      apply Nat.Div0.div_lt_upper_bound. cbn [length] in *. lia. }
    split; [exact I|].
    rewrite Forall_forall in Hbounds. now apply Hbounds.
Qed.

(** X19, three frames of 100, 300 and 200 ms: the average is 200 and the
    95th percentile is the largest sample. *)
Lemma X19_three_frames :
  (exists q,
      avgLatency
        (Telemetry.sessionStats
           (Telemetry.run
              [frame_at 1000 100 []; frame_at 2000 300 [];
               frame_at 3000 200 []] Telemetry.initial)) = JS.Num q
      /\ (q == 200)%Q)
  /\ p95Latency
       (Telemetry.sessionStats
          (Telemetry.run
             [frame_at 1000 100 []; frame_at 2000 300 [];
              frame_at 3000 200 []] Telemetry.initial)) = JS.Num 300.
Proof.
  assert (N : Telemetry.latencyHistoryRef
                (Telemetry.run
                   [frame_at 1000 100 []; frame_at 2000 300 [];
                    frame_at 3000 200 []] Telemetry.initial) <> [])
    by (vm_compute; discriminate).
  assert (F : Forall (fun x => (100 <= x <= 300)%Z)
                (Telemetry.latencyHistoryRef
                   (Telemetry.run
                      [frame_at 1000 100 []; frame_at 2000 300 [];
                       frame_at 3000 200 []] Telemetry.initial)))
    by (vm_compute; repeat constructor; discriminate).
  destruct (X19_reported_latencies_within_window _ 100 300 N F)
    as [[q [A _]] _].
  split; [|vm_compute; reflexivity].
  exists q. split; [exact A|].
  vm_compute in A. injection A as <-. reflexivity.
Defined.

(* ------------------------------------------------------------------ *)
(** ** The busy flag *)

Lemma busyMeansPending_step (e : Event) (st st' : State) :
  busyMeansPending st -> step e st = Some st' -> busyMeansPending st'.
Proof.
  intros B H. unfold step in H.
  destruct (handle e st) as [st1|] eqn:E; [|discriminate].
  injection H as <-. unfold busyMeansPending.
  destruct (commit_keeps st1) as [P [_ [Q _]]]. rewrite P, Q. clear P Q.
  assert (K : isProcessing (view st1) = isProcessing (view st) ->
              pending st1 = pending st ->
              isProcessing (view st1) = true -> pending st1 <> []).
  { intros E1 E2. rewrite E1, E2. exact B. }
  assert (F : forall r c i,
             isProcessing (view (processFrame r c i st)) = true ->
             pending (processFrame r c i st) <> []).
  { intros r c i. unfold processFrame.
    destruct (isModelLoaded r); cbn [negb].
    - cbn. intros _ Z. now apply app_eq_nil in Z as [_ Z].
    - exact B. }
  destruct e; cbn [handle] in E.
  - destruct (negb (isStreaming (view st)) && isModelLoaded (view st));
      [|discriminate].
    injection E as <-. apply K; unfold startStream;
      destruct (isModelLoaded (view st)); reflexivity.
  - destruct (isStreaming (view st)); [|discriminate].
    injection E as <-. apply K; unfold stopStream;
      cbn [streamIntervalRef setIsStreaming set_view];
      destruct (streamIntervalRef st); reflexivity.
  - destruct (isModelLoaded (view st) && negb (isProcessing (view st)));
      [|discriminate].
    injection E as <-. apply F.
  - injection E as <-. now apply K.
  - injection E as <-. now apply K.
  - injection E as <-. apply F.
  - destruct (find _ (timers st)) as [t|]; [|discriminate].
    injection E as <-. unfold tick.
    destruct (isProcessing (callback t)); cbn [negb]; [exact B | apply F].
  - destruct (existsb _ (pending st)); [|discriminate].
    injection E as <-. cbn. discriminate.
  - injection E as <-. now apply K.
Qed.

(** X20.  In every state the component reaches, uploads included, the
    busy flag is set only while some request is in flight; and a request
    that settles always clears it, even if another is still in flight. *)
Theorem X20_busy_flag_needs_request (loaded : bool) (es : list Event)
    (st : State) (Hrun : run es (initial loaded) = Some st) :
  (isProcessing (view st) = true -> pending st <> [])
  /\ forall call o st',
       step (Settle call o) st = Some st' ->
       isProcessing (view st') = false
       /\ length (pending st') < length (pending st).
Proof.
  split.
  - assert (G : forall s0, busyMeansPending s0 ->
                           run es s0 = Some st -> busyMeansPending st).
    { clear. revert st. induction es as [|e es IH]; intros st s0 B H;
        cbn [run] in H.
      - now injection H as <-.
      - destruct (step e s0) as [s1|] eqn:E; [|discriminate].
        exact (IH st s1 (busyMeansPending_step e s0 s1 B E) H). }
    apply (G (initial loaded)); [|exact Hrun].
    intros C. discriminate C.
  - intros call o st' H. unfold step in H. cbn [handle] in H.
    destruct (existsb _ (pending st)) eqn:X; [|discriminate].
    injection H as <-.
    destruct (commit_keeps (processFrame_settled call o st))
      as [P [_ [Q _]]].
    rewrite P, Q. split; [reflexivity|]. cbn.
    clear - X. induction (pending st) as [|p ps IH]; [discriminate|].
    cbn in *. destruct (fst p =? call) eqn:E; cbn.
    + pose proof (filter_length
                    (fun p0 => negb (fst p0 =? call)) ps). lia.
    + cbn in X. apply IH in X. lia.
Qed.

(** X20, an upload while the first tick's request is in flight: when the
    upload's request settles the flag is cleared although call 0 is still
    pending. *)
Lemma X20_flag_cleared_with_request_pending :
  exists st,
    run [ClickStart; Tick 1; Upload "aGVsbG8="; Settle 1 upload_resolves]
        (initial true) = Some st
    /\ isProcessing (view st) = false
    /\ map fst (pending st) = [0].
Proof.
  destruct (run [ClickStart; Tick 1; Upload "aGVsbG8="] (initial true))
    as [st0|] eqn:R0; [|vm_compute in R0; discriminate].
  destruct (step (Settle 1 upload_resolves) st0) as [st|] eqn:S;
    [|vm_compute in R0; injection R0 as <-; vm_compute in S; discriminate].
  destruct (X20_busy_flag_needs_request true _ st0 R0) as [_ K].
  destruct (K 1 upload_resolves st S) as [A _].
  exists st. split.
  { change (run [ClickStart; Tick 1; Upload "aGVsbG8=";
                 Settle 1 upload_resolves] (initial true))
      with (match run [ClickStart; Tick 1; Upload "aGVsbG8="] (initial true)
            with
            | Some s => match step (Settle 1 upload_resolves) s with
                        | Some s' => run [] s'
                        | None => None
                        end
            | None => None
            end).
    rewrite R0, S. reflexivity. }
  split; [exact A|].
  vm_compute in R0. injection R0 as <-.
  vm_compute in S. injection S as <-. reflexivity.
Defined.
